(** * Equilibrate: the star-rating engine of [Equilibrate.py]

    A shallow embedding of [simple_rule_sentiment] and of the class
    [StarRatingSystem], with the properties of its rating engine.

    Modelling conventions.
    - A Python [float] is a real number of [R]: arithmetic is exact, without
      rounding, infinities and NaN.  The one operation of the engine that
      raises on overflow, [**], raises where its exact result leaves the
      range of binary64.  Where a claim speaks of exact float values the function is
      embedded a second time over binary64 ([Module Binary64]).
    - A [str] is a [string] whose characters are code points below 256;
      [str.lower] is given on that range.  The classifier is embedded a
      second time on strings of any code points ([Module Unicode]), with
      [str.lower] a parameter there.
    - An aware UTC [datetime], and the ISO string [isoformat] makes of it, is
      the integer number of microseconds since the epoch ([fromisoformat]
      inverts [isoformat]).  Every reading of [datetime.now] is an input.
    - The dictionaries [ratings], [meta] and [last_feedback] are finite maps.
    - A method of the class is a computation on the stores that returns a
      value or raises an exception. *)

From Stdlib Require Import Floats.
From Stdlib Require Import Reals Lra Lia ZArith String Ascii List.
From stdpp Require Import gmap strings list fin_maps.

#[local] Set Warnings "-inexact-float".

Local Open Scope string_scope.

(** ** Python values and strings *)

(** The values of [comment_text] the engine is embedded on: [None], a
    [str], an [int] and a [bool].  Objects that are no [str] and yet can be
    sliced (bytes, lists, tuples) are not among them. *)
Inductive PyValue : Type :=
  | PyNone
  | PyStr (s : string)
  | PyInt (n : Z)
  | PyBool (b : bool).

(** Truth value of an object, as [not text] tests it. *)
Definition truthy (v : PyValue) : bool :=
  match v with
  | PyNone => false
  | PyStr s => negb (String.eqb s "")
  | PyInt n => negb (n =? 0)%Z
  | PyBool b => b
  end.

(** [isinstance(v, str)]. *)
Definition is_str (v : PyValue) : bool :=
  match v with PyStr _ => true | _ => false end.

(** [str.lower] on one code point below 256: A-Z and the Latin-1 capitals
    U+00C0..U+00DE (U+00D7, the multiplication sign, excepted) move up by 32. *)
Definition lower_char (c : ascii) : ascii :=
  let n := N_of_ascii c in
  if ((65 <=? n) && (n <=? 90) || (192 <=? n) && (n <=? 222) && negb (n =? 215))%N
  then ascii_of_N (n + 32)
  else c.

Fixpoint lower (s : string) : string :=
  match s with
  | EmptyString => EmptyString
  | String c s' => String (lower_char c) (lower s')
  end.

(** [w in s] on strings: [w] starts at some position of [s]. *)
Fixpoint contains (w s : string) : bool :=
  String.prefix w s ||
  match s with
  | EmptyString => false
  | String _ s' => contains w s'
  end.

(** ** Simple fallback sentiment *)

Definition POS_WORDS : list string :=
  ["good"; "great"; "awesome"; "nice"; "love"; "excellent"; "amazing";
   "like"; "well"; "fantastic"; "brilliant"; "happy"; "recommend"].

Definition NEG_WORDS : list string :=
  ["bad"; "terrible"; "hate"; "awful"; "worst"; "dislike";
   "sucks"; "stupid"; "vulgar"; "disgusting"; "scam"; "fraud"].

(** The two [for] loops: one pass over a word set, the score moved by
    [delta] at every word found in [text_l]. *)
Definition score_loop (delta : Z) (words : list string) (text_l : string) (score : Z) : Z :=
  fold_left (fun sc w => if contains w text_l then (sc + delta)%Z else sc) words score.

Definition simple_rule_sentiment (text : PyValue) : string :=
  if negb (truthy text) || negb (is_str text) then "neutral"
  else
    match text with
    | PyStr s =>
        let text_l := lower s in
        let score := 0%Z in
        let score := score_loop 1 POS_WORDS text_l score in
        let score := score_loop (-1) NEG_WORDS text_l score in
        if (score >? 0)%Z then "positive"
        else if (score <? 0)%Z then "negative"
        else "neutral"
    | _ => "neutral"
    end.


(** ** The classifier on every input *)

Module Unicode.

(** A [str] as the list of its code points, of any size; every other
    object (None, a number, bytes, a list, ...) by the truth value it has,
    all that [simple_rule_sentiment] looks at. *)
Inductive PyValue : Type :=
  | PyStr (s : list N)
  | PyObject (truth : bool).

Definition truthy (v : PyValue) : bool :=
  match v with
  | PyStr [] => false
  | PyStr (_ :: _) => true
  | PyObject truth => truth
  end.

Definition is_str (v : PyValue) : bool :=
  match v with PyStr _ => true | PyObject _ => false end.

Fixpoint prefix (w s : list N) : bool :=
  match w, s with
  | [], _ => true
  | a :: w', b :: s' => (a =? b)%N && prefix w' s'
  | _ :: _, [] => false
  end.

(** [w in s]. *)
Fixpoint contains (w s : list N) : bool :=
  prefix w s ||
  match s with
  | [] => false
  | _ :: s' => contains w s'
  end.

Definition code_points (s : string) : list N :=
  List.map N_of_ascii (list_ascii_of_string s).

Definition POS_WORDS : list (list N) := List.map code_points POS_WORDS.

Definition NEG_WORDS : list (list N) := List.map code_points NEG_WORDS.

(** Capital letters among the code points below 256: A-Z and U+00C0..U+00DE
    without the multiplication sign U+00D7.  The small letter of each lies
    32 above it. *)
Definition is_capital (c : N) : bool :=
  ((65 <=? c) && (c <=? 90) || (192 <=? c) && (c <=? 222) && negb (c =? 215))%N.

(** The small letters a-z, of which the words of both sets consist. *)
Definition is_small (c : N) : bool := ((97 <=? c) && (c <=? 122))%N.

(** U+212A, whose small letter is k (107). *)
Definition KELVIN_SIGN : N := 8490.

(** U+0130, capital I with a dot above. *)
Definition CAPITAL_I_DOT : N := 304.

Definition latin1 (s : list N) : bool := forallb (fun c => (c <? 256)%N) s.

(** What [str.lower] does to a code point below 256. *)
Definition lower_latin1 (c : N) : N := if is_capital c then (c + 32)%N else c.

(** [str.lower] rewrites its argument code point by code point.  What it
    puts for [c]: below 256 the code point, its capital folded; k for the
    Kelvin sign; i and a combining dot (U+0307) for U+0130; and for every
    other code point one or more code points (which ones may depend on the
    neighbours, as for the capital sigma), none of them among a-z. *)
Definition lowered (c : N) (chunk : list N) : Prop :=
  if (c <? 256)%N then chunk = [lower_latin1 c]
  else if (c =? KELVIN_SIGN)%N then chunk = [107%N]
  else if (c =? CAPITAL_I_DOT)%N then chunk = [105%N; 775%N]
  else chunk <> [] /\ forallb (fun x => negb (is_small x)) chunk = true.

Definition lowers (str_lower : list N -> list N) : Prop :=
  forall s, exists chunks, Forall2 lowered s chunks /\ str_lower s = concat chunks.

Definition lowers_latin1 (str_lower : list N -> list N) : Prop :=
  forall s, latin1 s = true -> str_lower s = List.map lower_latin1 s.








Section Classifier.

(** The builtin [str.lower], on all of Unicode. *)
Variable str_lower : list N -> list N.

Definition score_loop (delta : Z) (words : list (list N)) (text_l : list N) (score : Z) : Z :=
  fold_left (fun sc w => if contains w text_l then (sc + delta)%Z else sc) words score.

Definition simple_rule_sentiment (text : PyValue) : string :=
  if negb (truthy text) || negb (is_str text) then "neutral"
  else
    match text with
    | PyStr s =>
        let text_l := str_lower s in
        let score := 0%Z in
        let score := score_loop 1 POS_WORDS text_l score in
        let score := score_loop (-1) NEG_WORDS text_l score in
        if (score >? 0)%Z then "positive"
        else if (score <? 0)%Z then "negative"
        else "neutral"
    | PyObject _ => "neutral"
    end.

End Classifier.

End Unicode.

(** ** Exceptions and configuration *)

Inductive exn : Type :=
  | ValueError (msg : string)
  | ZeroDivisionError (msg : string)
  | OverflowError (msg : string)
  | KeyError (key : string).

Inductive outcome (A : Type) : Type :=
  | Return (a : A)
  | Raise (e : exn).
Arguments Return {A} a.
Arguments Raise {A} e.

(** The constructor's arguments.  [sentiment_pipe] is [Some pipe] when
    [use_advanced_sentiment] holds: [pipe text] is the label of the first
    result of the pipeline, or [None] when the call raises. *)
Record Config : Type := {
  base_change : R;
  min_rating : R;
  max_rating : R;
  neutral : R;
  decay_half_life_days : R;
  cooldown_days : Z;
  sentiment_pipe : option (string -> option string)
}.

Definition default_config : Config := {|
  base_change := 0.06;
  min_rating := 0;
  max_rating := 5;
  neutral := 2.5;
  decay_half_life_days := 90;
  cooldown_days := 7;
  sentiment_pipe := None
|}.

(** ** Stores *)

Inductive Event : Type :=
  | FeedbackEvent (t : Z) (rater feedback_type polarity : string)
                  (old_rating change new_rating : R)
  | DecayEvent (t : Z) (old_rating new_rating : R).

Record Meta : Type := {
  received_count : Z;
  positive_count : Z;
  negative_count : Z;
  last_updated : Z;
  history : list Event
}.

Record Appeal : Type := {
  appeal_user : string;
  appeal_reason : string;
  appeal_time : Z
}.

Record State : Type := {
  ratings : gmap string R;
  meta : gmap string Meta;
  last_feedback : gmap (string * string) Z;
  appeal_log : list Appeal
}.

Definition init_state : State := {|
  ratings := ∅; meta := ∅; last_feedback := ∅; appeal_log := []
|}.

Definition with_ratings (f : gmap string R -> gmap string R) (st : State) : State :=
  {| ratings := f (ratings st); meta := meta st;
     last_feedback := last_feedback st; appeal_log := appeal_log st |}.

Definition with_meta (f : gmap string Meta -> gmap string Meta) (st : State) : State :=
  {| ratings := ratings st; meta := f (meta st);
     last_feedback := last_feedback st; appeal_log := appeal_log st |}.

Definition with_last_feedback
    (f : gmap (string * string) Z -> gmap (string * string) Z) (st : State) : State :=
  {| ratings := ratings st; meta := meta st;
     last_feedback := f (last_feedback st); appeal_log := appeal_log st |}.

Definition with_appeal_log (f : list Appeal -> list Appeal) (st : State) : State :=
  {| ratings := ratings st; meta := meta st;
     last_feedback := last_feedback st; appeal_log := f (appeal_log st) |}.

(** [deque(maxlen=500)]: appending to a full deque drops its oldest item. *)
Definition HISTORY_MAXLEN : nat := 500.

Definition deque_append {A : Type} (d : list A) (x : A) : list A :=
  if (HISTORY_MAXLEN <=? List.length d)%nat then List.tl d ++ [x] else d ++ [x].

(** The value the [defaultdict] factory builds for a missing user. *)
Definition default_meta (now : Z) : Meta := {|
  received_count := 0; positive_count := 0; negative_count := 0;
  last_updated := now; history := []
|}.

(** ** Computations on the stores *)

Definition Py (A : Type) : Type := State -> outcome A * State.

Definition ret {A : Type} (a : A) : Py A := fun st => (Return a, st).

Definition raise {A : Type} (e : exn) : Py A := fun st => (Raise e, st).

Definition bind {A B : Type} (c : Py A) (k : A -> Py B) : Py B :=
  fun st =>
    match c st with
    | (Return a, st') => k a st'
    | (Raise e, st') => (Raise e, st')
    end.

Definition lift {A : Type} (o : outcome A) : Py A := fun st => (o, st).

Definition gets {A : Type} (f : State -> A) : Py A := fun st => (Return (f st), st).

Definition modify (f : State -> State) : Py unit := fun st => (Return tt, f st).

Definition exec {A : Type} (c : Py A) (st : State) : State := snd (c st).

Declare Scope py_scope.
Delimit Scope py_scope with py.
Notation "x <~ c1 ;; c2" := (bind c1 (fun x => c2))
  (at level 100, c1 at next level, right associativity) : py_scope.
Notation "c1 ;; c2" := (bind c1 (fun _ => c2))
  (at level 100, right associativity) : py_scope.

Local Open Scope R_scope.

(** ** Utility helpers *)

(** [self.ratings.get(user_id, self.neutral)]. *)
Definition rating_of (cfg : Config) (st : State) (user_id : string) : R :=
  default (neutral cfg) (ratings st !! user_id).

Definition get_rating (cfg : Config) (user_id : string) : Py R :=
  gets (fun st => rating_of cfg st user_id).

Definition _clamp (cfg : Config) (val : R) : R :=
  Rmax (min_rating cfg) (Rmin (max_rating cfg) val).

Definition MICROSECONDS_PER_DAY : Z := 86400000000.

(** [timedelta.days]: whole days, rounded toward minus infinity. *)
Definition timedelta_days (delta : Z) : Z := (delta / MICROSECONDS_PER_DAY)%Z.

(** [timedelta.total_seconds()]. *)
Definition total_seconds (delta : Z) : R := IZR delta / 1000000.

Definition _cooldown_ok (cfg : Config) (now : Z) (target_user rater_user : string) : Py bool :=
  let key := (rater_user, target_user) in
  gets (fun st =>
    match last_feedback st !! key with
    | None => true
    | Some last_time =>
        if (cooldown_days cfg <=? timedelta_days (now - last_time))%Z then true else false
    end).

(** ** Influence and difficulty *)

Definition py_div (a b : R) : outcome R :=
  if Req_dec_T b 0 then Raise (ZeroDivisionError "float division by zero")
  else Return (a / b).

Definition math_sqrt (x : R) : outcome R :=
  if Rlt_dec x 0 then Raise (ValueError "math domain error")
  else Return (sqrt x).

Definition _influence_weight (cfg : Config) (rater_rating : R) : outcome R :=
  match py_div rater_rating (max_rating cfg) with
  | Raise e => Raise e
  | Return norm =>
      match math_sqrt norm with
      | Raise e => Raise e
      | Return root => Return (0.1 + 1.1 * root)
      end
  end.

(** From this magnitude on a result rounds to infinity: 2^1024 - 2^970,
    half a unit in the last place above the largest double. *)
Definition FLOAT_OVERFLOW : R := (2 - / 2 ^ 53) * 2 ^ 1023.

(** [x ** 3] on a finite float: a power too large for a double raises. *)
Definition float_cube (x : R) : outcome R :=
  if Rle_dec FLOAT_OVERFLOW (Rabs (x ^ 3))
  then Raise (OverflowError "(34, 'Numerical result out of range')")
  else Return (x ^ 3).

Definition _difficulty_modifier (cfg : Config) (target_rating : R) : outcome R :=
  match py_div target_rating (max_rating cfg) with
  | Raise e => Raise e
  | Return frac =>
      match float_cube frac with
      | Raise e => Raise e
      | Return cube =>
          let modifier := 1 - cube in
          Return (Rmax 0.12 modifier)
      end
  end.

(** The two factors as their formulas read. *)
Definition influence_spec (max_rating rater_rating : R) : R :=
  0.1 + 1.1 * sqrt (rater_rating / max_rating).

Definition difficulty_spec (max_rating target_rating : R) : R :=
  Rmax 0.12 (1 - (target_rating / max_rating) ^ 3).

(** ** Sentiment handling *)

Definition sentiment_from_text (cfg : Config) (text : PyValue) : string :=
  match sentiment_pipe cfg with
  | Some pipe =>
      match text with
      | PyStr s =>
          match pipe (String.substring 0 512 s) with
          | Some res_label =>
              let label := lower res_label in
              if contains "pos" label then "positive"
              else if contains "neg" label then "negative"
              else "neutral"
          | None => simple_rule_sentiment text
          end
      | _ => simple_rule_sentiment text
      end
  | None => simple_rule_sentiment text
  end.

(** ** Feedback processing *)

(** The three readings of [datetime.now] one call of [process_feedback] can
    make, in order: in [_cooldown_ok], in the [defaultdict] factory when the
    target has no metadata yet, and in [_now_iso]. *)
Record Clock : Type := {
  t_gate : Z;
  t_default : Z;
  t_commit : Z
}.

Definition polarity_of (cfg : Config) (feedback_type : string) (comment_text : PyValue)
    : outcome string :=
  if String.eqb feedback_type "like" then Return "positive"
  else if String.eqb feedback_type "dislike" then Return "negative"
  else if String.eqb feedback_type "comment" then Return (sentiment_from_text cfg comment_text)
  else Raise (ValueError "feedback_type must be 'like'|'dislike'|'comment'").

(** [{"like": 0.6, "dislike": 0.8, "comment": 1.0}[feedback_type]]. *)
Definition type_mult_of (feedback_type : string) : outcome R :=
  if String.eqb feedback_type "like" then Return 0.6
  else if String.eqb feedback_type "dislike" then Return 0.8
  else if String.eqb feedback_type "comment" then Return 1
  else Raise (KeyError feedback_type).

Definition direction_of (polarity : string) : Z :=
  if String.eqb polarity "positive" then 1
  else if String.eqb polarity "negative" then (-1)
  else 0.

(** [round(x, 4)]: the nearest multiple of 1/10000, a tie going to the even
    one. *)
Definition round_half_even (x : R) : Z :=
  let f := Int_part x in
  let d := frac_part x in
  if Rlt_dec d (1 / 2) then f
  else if Rlt_dec (1 / 2) d then (f + 1)%Z
  else if Z.even f then f else (f + 1)%Z.

Definition round4 (x : R) : R := IZR (round_half_even (x * 10000)) / 10000.

(** [m = self.meta[target_user]] on the [defaultdict]: a missing entry is
    created by the factory. *)
Definition meta_getitem (now : Z) (uid : string) : Py Meta :=
  fun st =>
    match meta st !! uid with
    | Some m => (Return m, st)
    | None => (Return (default_meta now), with_meta <[uid := default_meta now]> st)
    end.

(** An assignment through the reference [m]: the entry of [uid] in the
    store changes. *)
Definition update_meta (uid : string) (f : Meta -> Meta) : Py unit :=
  modify (with_meta (alter f uid)).

Definition incr_received (m : Meta) : Meta :=
  {| received_count := received_count m + 1; positive_count := positive_count m;
     negative_count := negative_count m; last_updated := last_updated m;
     history := history m |}.

Definition incr_positive (m : Meta) : Meta :=
  {| received_count := received_count m; positive_count := positive_count m + 1;
     negative_count := negative_count m; last_updated := last_updated m;
     history := history m |}.

Definition incr_negative (m : Meta) : Meta :=
  {| received_count := received_count m; positive_count := positive_count m;
     negative_count := negative_count m + 1; last_updated := last_updated m;
     history := history m |}.

Definition set_last_updated (t : Z) (m : Meta) : Meta :=
  {| received_count := received_count m; positive_count := positive_count m;
     negative_count := negative_count m; last_updated := t;
     history := history m |}.

Definition append_history (e : Event) (m : Meta) : Meta :=
  {| received_count := received_count m; positive_count := positive_count m;
     negative_count := negative_count m; last_updated := last_updated m;
     history := deque_append (history m) e |}.

Definition process_feedback (cfg : Config) (clk : Clock)
    (target_user rater_user feedback_type : string) (comment_text : PyValue) : Py R :=
  (ok <~ _cooldown_ok cfg (t_gate clk) target_user rater_user ;;
   if negb ok then get_rating cfg target_user
   else
     polarity <~ lift (polarity_of cfg feedback_type comment_text) ;;
     target_rating <~ get_rating cfg target_user ;;
     rater_rating <~ get_rating cfg rater_user ;;
     influence <~ lift (_influence_weight cfg rater_rating) ;;
     type_mult <~ lift (type_mult_of feedback_type) ;;
     let direction := direction_of polarity in
     change <~ (if (direction =? 0)%Z then ret 0
                else
                  let change := base_change cfg * influence * type_mult * IZR direction in
                  d <~ lift (_difficulty_modifier cfg target_rating) ;;
                  ret (change * d)) ;;
     let new_rating := _clamp cfg (target_rating + change) in
     modify (with_ratings <[target_user := new_rating]>) ;;
     meta_getitem (t_default clk) target_user ;;
     update_meta target_user incr_received ;;
     (if (direction =? 1)%Z then update_meta target_user incr_positive
      else if (direction =? -1)%Z then update_meta target_user incr_negative
      else ret tt) ;;
     (* [m["last_updated"]], read twice below, is the value set here *)
     let now_iso := t_commit clk in
     update_meta target_user (set_last_updated now_iso) ;;
     update_meta target_user
       (append_history
          (FeedbackEvent now_iso rater_user feedback_type polarity
                         target_rating (round4 change) new_rating)) ;;
     modify (with_last_feedback <[(rater_user, target_user) := now_iso]>) ;;
     ret new_rating)%py.

(** One element of the argument of [bulk_process], with the clock readings
    of its call; [fb_text] is [PyNone] for a tuple of three. *)
Record Feedback : Type := {
  fb_target : string;
  fb_rater : string;
  fb_type : string;
  fb_text : PyValue
}.

Fixpoint bulk_loop (cfg : Config) (feedbacks : list (Clock * Feedback)) (results : list R)
    : Py (list R) :=
  match feedbacks with
  | [] => ret results
  | (clk, fb) :: rest =>
      (r <~ process_feedback cfg clk (fb_target fb) (fb_rater fb) (fb_type fb) (fb_text fb) ;;
       bulk_loop cfg rest (results ++ [r])%list)%py
  end.

Definition bulk_process (cfg : Config) (feedbacks : list (Clock * Feedback)) : Py (list R) :=
  bulk_loop cfg feedbacks [].

(** ** Decay over time *)

(** The body of the loop of [apply_decay] for the item [(uid, m)].  The keys
    of a dictionary are distinct and an iteration writes to the entries of its
    own [uid] only, so [m] is the entry as the sweep found it. *)
Definition decay_step (cfg : Config) (now : Z) (k : R) (uid : string) (m : Meta)
    (st : State) : State :=
  let days := total_seconds (now - last_updated m) / 86400 in
  if Rle_dec days 0 then st
  else
    let old_r := rating_of cfg st uid in
    let factor := exp (- k * days) in
    let decayed := neutral cfg + (old_r - neutral cfg) * factor in
    let st := with_ratings <[uid := _clamp cfg decayed]> st in
    let st := with_meta (alter (set_last_updated now) uid) st in
    (* [self.ratings[uid]] is the value stored two lines above *)
    let new_r := _clamp cfg decayed in
    with_meta (alter (append_history (DecayEvent now old_r new_r)) uid) st.

Definition apply_decay (cfg : Config) (now : Z) : Py unit :=
  let k := ln 2 / Rmax 1 (decay_half_life_days cfg) in
  modify (fun st => map_fold (decay_step cfg now k) st (meta st)).

(** ** Privacy and appeals *)

Definition file_appeal (target_user reason : string) (now : Z) : Py unit :=
  modify (with_appeal_log (fun log =>
    (log ++ [{| appeal_user := target_user; appeal_reason := reason;
                appeal_time := now |}])%list)).

Record AnonymizedReport : Type := {
  ar_rating : R;
  ar_received_count : Z;
  ar_positive_count : Z;
  ar_negative_count : Z
}.

Definition anonymized_report (cfg : Config) (user_id : string) : Py AnonymizedReport :=
  (r <~ get_rating cfg user_id ;;
   m <~ gets (fun st => meta st !! user_id) ;;
   ret {| ar_rating := r;
          ar_received_count := from_option received_count 0%Z m;
          ar_positive_count := from_option positive_count 0%Z m;
          ar_negative_count := from_option negative_count 0%Z m |})%py.

Record FullReport : Type := {
  fr_user : string;
  fr_meta : option Meta;
  fr_rating : R
}.

Definition full_report (cfg : Config) (user_id : string) : Py FullReport :=
  (m <~ gets (fun st => meta st !! user_id) ;;
   r <~ get_rating cfg user_id ;;
   ret {| fr_user := user_id; fr_meta := m; fr_rating := r |})%py.

(** ** The operations of the system *)

Inductive Op : Type :=
  | OpProcessFeedback (clk : Clock) (target_user rater_user feedback_type : string)
                      (comment_text : PyValue)
  | OpBulkProcess (feedbacks : list (Clock * Feedback))
  | OpApplyDecay (now : Z)
  | OpFileAppeal (target_user reason : string) (now : Z)
  | OpAnonymizedReport (user_id : string)
  | OpFullReport (user_id : string)
  | OpGetRating (user_id : string).

(** The stores an operation leaves behind, whether it returns or raises. *)
Definition run_op (cfg : Config) (op : Op) (st : State) : State :=
  match op with
  | OpProcessFeedback clk t r f c => exec (process_feedback cfg clk t r f c) st
  | OpBulkProcess fbs => exec (bulk_process cfg fbs) st
  | OpApplyDecay now => exec (apply_decay cfg now) st
  | OpFileAppeal t reason now => exec (file_appeal t reason now) st
  | OpAnonymizedReport u => exec (anonymized_report cfg u) st
  | OpFullReport u => exec (full_report cfg u) st
  | OpGetRating u => exec (get_rating cfg u) st
  end.

Definition run_ops (cfg : Config) (ops : list Op) (st : State) : State :=
  fold_left (fun s op => run_op cfg op s) ops st.

(** Every stored rating lies between the bounds. *)
Definition ratings_clamped (cfg : Config) (st : State) : Prop :=
  forall (uid : string) (r : R),
    ratings st !! uid = Some r -> min_rating cfg <= r <= max_rating cfg.

(** A configuration the engine is meant for: bounds in order, neutral
    between them, ratings non-negative, a positive maximum. *)
Definition well_formed (cfg : Config) : Prop :=
  0 <= min_rating cfg /\ min_rating cfg <= neutral cfg <= max_rating cfg
  /\ 0 < max_rating cfg.

(** The cooldown gate is shut: an entry for the pair exists and fewer than
    [cooldown_days] whole days have gone by since. *)
Definition cooldown_active (cfg : Config) (st : State) (now : Z)
    (target_user rater_user : string) : Prop :=
  exists last_time : Z,
    last_feedback st !! (rater_user, target_user) = Some last_time
    /\ (timedelta_days (now - last_time) < cooldown_days cfg)%Z.

(** The change of an accepted feedback, once polarity, influence and type
    multiplier are known. *)
Definition change_of (cfg : Config) (polarity : string) (influence type_mult target_rating : R)
    : outcome R :=
  if (direction_of polarity =? 0)%Z then Return 0
  else
    match _difficulty_modifier cfg target_rating with
    | Raise e => Raise e
    | Return d =>
        Return (base_change cfg * influence * type_mult * IZR (direction_of polarity) * d)
    end.

(** The metadata and the stores an accepted feedback commits, written out. *)
Definition committed_meta (clk : Clock) (direction : Z) (ev : Event) (old : option Meta)
    : Meta :=
  let m := default (default_meta (t_default clk)) old in
  {| received_count := received_count m + 1;
     positive_count := if (direction =? 1)%Z then positive_count m + 1 else positive_count m;
     negative_count := if (direction =? -1)%Z then negative_count m + 1 else negative_count m;
     last_updated := t_commit clk;
     history := deque_append (history m) ev |}.

Definition committed_state (cfg : Config) (clk : Clock)
    (target_user rater_user feedback_type polarity : string) (change : R) (st : State)
    : State :=
  let target_rating := rating_of cfg st target_user in
  let new_rating := _clamp cfg (target_rating + change) in
  let ev := FeedbackEvent (t_commit clk) rater_user feedback_type polarity
                          target_rating (round4 change) new_rating in
  {| ratings := <[target_user := new_rating]> (ratings st);
     meta := <[target_user := committed_meta clk (direction_of polarity) ev
                                             (meta st !! target_user)]> (meta st);
     last_feedback := <[(rater_user, target_user) := t_commit clk]> (last_feedback st);
     appeal_log := appeal_log st |}.

(** The change a like moves between two users at neutral, with the
    constructor's defaults. *)
Definition like_change : R := 0.06 * (0.1 + 1.1 * sqrt 0.5) * 0.6 * 1 * 0.875.

(** The decay sweep in the words of its description. *)
Definition elapsed_days (now last : Z) : R := total_seconds (now - last) / 86400.

Definition decay_constant (cfg : Config) : R :=
  ln 2 / Rmax 1 (decay_half_life_days cfg).

Definition decayed_rating (cfg : Config) (old_rating days : R) : R :=
  _clamp cfg (neutral cfg
              + (old_rating - neutral cfg) * exp (- decay_constant cfg * days)).

Definition decayed_meta (cfg : Config) (now : Z) (old_rating : R) (m : Meta) : Meta :=
  {| received_count := received_count m;
     positive_count := positive_count m;
     negative_count := negative_count m;
     last_updated := now;
     history := deque_append (history m)
                  (DecayEvent now old_rating
                     (decayed_rating cfg old_rating (elapsed_days now (last_updated m)))) |}.

(** What the loop has done once it has walked the items [items]. *)
Definition swept (cfg : Config) (now : Z) (k : R) (st0 : State)
    (st : State) (items : gmap string Meta) : Prop :=
  last_feedback st = last_feedback st0
  /\ appeal_log st = appeal_log st0
  /\ forall u : string,
       match items !! u with
       | None => ratings st !! u = ratings st0 !! u /\ meta st !! u = meta st0 !! u
       | Some m =>
           let days := total_seconds (now - last_updated m) / 86400 in
           let old_r := rating_of cfg st0 u in
           let new_r := _clamp cfg (neutral cfg + (old_r - neutral cfg) * exp (- k * days)) in
           if Rle_dec days 0
           then ratings st !! u = ratings st0 !! u /\ meta st !! u = meta st0 !! u
           else ratings st !! u = Some new_r
                /\ meta st !! u
                   = (fun m0 => append_history (DecayEvent now old_r new_r)
                                  (set_last_updated now m0)) <$> meta st0 !! u
       end.

(** ** The influence weight on binary64 floats *)

Module Binary64.

(** [_influence_weight] with the arithmetic of the machine: division,
    square root, product and sum each rounded to the nearest double. *)
Definition _influence_weight (max_rating rater_rating : float) : outcome float :=
  if PrimFloat.eqb max_rating 0 then Raise (ZeroDivisionError "float division by zero")
  else
    let norm := (rater_rating / max_rating)%float in
    if PrimFloat.ltb norm 0 then Raise (ValueError "math domain error")
    else Return (0.1 + 1.1 * PrimFloat.sqrt norm)%float.

End Binary64.

(** ** Invariants of the stores and views of a run *)

(** The counters of one user: directional feedback is part of the feedback
    received. *)
Definition counters_ok (m : Meta) : Prop :=
  (0 <= positive_count m)%Z /\ (0 <= negative_count m)%Z
  /\ (positive_count m + negative_count m <= received_count m)%Z.

(** The history of one user fits its [deque]. *)
Definition history_bounded (m : Meta) : Prop :=
  (List.length (history m) <= HISTORY_MAXLEN)%nat.

Definition meta_ok (st : State) : Prop :=
  forall (uid : string) (m : Meta),
    meta st !! uid = Some m -> counters_ok m /\ history_bounded m.

(** The three dictionaries speak of the same users. *)
Definition stores_aligned (st : State) : Prop :=
  (forall uid : string, is_Some (ratings st !! uid) <-> is_Some (meta st !! uid))
  /\ (forall (rater_user target_user : string) (t : Z),
        last_feedback st !! (rater_user, target_user) = Some t ->
        is_Some (meta st !! target_user)).

(** The records a sequence of operations appends to the appeal log. *)
Definition appeals_of (ops : list Op) : list Appeal :=
  flat_map (fun op =>
    match op with
    | OpFileAppeal target_user reason now =>
        [{| appeal_user := target_user; appeal_reason := reason; appeal_time := now |}]
    | _ => []
    end) ops.

(** One element of a bulk as a call of its own. *)
Definition op_of_feedback (x : Clock * Feedback) : Op :=
  OpProcessFeedback (fst x) (fb_target (snd x)) (fb_rater (snd x)) (fb_type (snd x))
                    (fb_text (snd x)).

(** [simple_rule_sentiment] on a string, the two word sets walked in the
    orders [pos] and [neg]: the iteration order of a [set] is not fixed. *)
Definition sentiment_walk (pos neg : list string) (s : string) : string :=
  let text_l := lower s in
  let score := 0%Z in
  let score := score_loop 1 pos text_l score in
  let score := score_loop (-1) neg text_l score in
  if (score >? 0)%Z then "positive"
  else if (score <? 0)%Z then "negative"
  else "neutral".

(** * Properties *)

(** ** The lexical classifier *)

Example sentiment_love :
  simple_rule_sentiment (PyStr "I love this content, great job!") = "positive".
Proof. reflexivity. Qed.

Example sentiment_awful :
  simple_rule_sentiment (PyStr "this is disgusting and awful") = "negative".
Proof. reflexivity. Qed.

Example sentiment_dislike_cancels : simple_rule_sentiment (PyStr "I DISLIKE it") = "neutral".
Proof. reflexivity. Qed.

Lemma score_loop_count delta words text_l score :
  score_loop delta words text_l score
  = (score + delta * Z.of_nat (List.length (List.filter (fun w => contains w text_l) words)))%Z.
Proof.
  unfold score_loop. revert score.
  induction words as [|w words IH]; intros score; simpl.
  - lia.
  - rewrite IH. destruct (contains w text_l); simpl List.length; lia.
Qed.



(** The order in which a word set is walked does not matter. *)
Lemma score_loop_perm delta words words' text_l score :
  Permutation words words' ->
  score_loop delta words text_l score = score_loop delta words' text_l score.
Proof.
  intros Hp. rewrite !score_loop_count. do 3 f_equal.
  apply Permutation_length.
  induction Hp as [|w l l' _ IH|w w' l|l l' l'' _ IH1 _ IH2]; simpl.
  - constructor.
  - destruct (contains w text_l); [by constructor|done].
  - destruct (contains w text_l), (contains w' text_l);
      first [apply perm_swap | reflexivity].
  - by etransitivity.
Qed.

(** *** On every input *)



















Lemma lowers_on_latin1 str_lower : Unicode.lowers str_lower -> Unicode.lowers_latin1 str_lower.
Proof.
  intros Hlow s Hs. destruct (Hlow s) as (chunks & Hall & ->).
  induction Hall as [|c chunk s chunks Hc _ IH]; [done|].
  unfold Unicode.latin1 in Hs. cbn [forallb] in Hs.
  apply andb_true_iff in Hs as [Hc' Hs].
  unfold Unicode.lowered in Hc. rewrite Hc' in Hc. subst chunk.
  cbn [concat app List.map]. f_equal. by apply IH.
Qed.



(** *** The classifier of the engine is the one on every input *)

Lemma code_points_lower_char c :
  N_of_ascii (lower_char c) = Unicode.lower_latin1 (N_of_ascii c).
Proof.
  unfold lower_char, Unicode.lower_latin1. cbv zeta.
  change ((65 <=? N_of_ascii c) && (N_of_ascii c <=? 90)
          || (192 <=? N_of_ascii c) && (N_of_ascii c <=? 222)
             && negb (N_of_ascii c =? 215))%N
    with (Unicode.is_capital (N_of_ascii c)).
  destruct (Unicode.is_capital (N_of_ascii c)) eqn:Hc; [|done].
  apply N_ascii_embedding.
  unfold Unicode.is_capital in Hc.
  apply orb_true_iff in Hc as [Hc|Hc].
  - apply andb_true_iff in Hc as [_ Hc%N.leb_le]. lia.
  - apply andb_true_iff in Hc as [Hc _]. apply andb_true_iff in Hc as [_ Hc%N.leb_le]. lia.
Qed.

Lemma code_points_lower s :
  Unicode.code_points (lower s) = List.map Unicode.lower_latin1 (Unicode.code_points s).
Proof.
  unfold Unicode.code_points. induction s as [|c s IH]; [done|].
  cbn [lower list_ascii_of_string List.map]. by rewrite IH, code_points_lower_char.
Qed.

Lemma code_points_latin1 s : Unicode.latin1 (Unicode.code_points s) = true.
Proof.
  unfold Unicode.latin1, Unicode.code_points. induction s as [|c s IH]; [done|].
  cbn [list_ascii_of_string List.map forallb]. rewrite IH, andb_true_r.
  apply N.ltb_lt, N_ascii_bounded.
Qed.

Lemma code_points_eqb a b :
  (N_of_ascii a =? N_of_ascii b)%N = if ascii_dec a b then true else false.
Proof.
  destruct (ascii_dec a b) as [->|Hab]; [apply N.eqb_refl|].
  apply N.eqb_neq. intros Hn. apply Hab.
  by rewrite <- (ascii_N_embedding a), <- (ascii_N_embedding b), Hn.
Qed.

Lemma code_points_prefix w s :
  Unicode.prefix (Unicode.code_points w) (Unicode.code_points s) = String.prefix w s.
Proof.
  unfold Unicode.code_points. revert s. induction w as [|a w IH]; intros s.
  - by destruct s.
  - destruct s as [|b s]; [done|].
    cbn [list_ascii_of_string List.map Unicode.prefix String.prefix].
    rewrite IH, code_points_eqb. by destruct (ascii_dec a b).
Qed.

Lemma code_points_contains w s :
  Unicode.contains (Unicode.code_points w) (Unicode.code_points s) = contains w s.
Proof.
  induction s as [|b s IH].
  - cbn [contains]. rewrite <- code_points_prefix. reflexivity.
  - cbn [contains]. rewrite <- code_points_prefix, <- IH. reflexivity.
Qed.

Lemma code_points_score_loop delta words text_l score :
  Unicode.score_loop delta (List.map Unicode.code_points words)
                     (Unicode.code_points text_l) score
  = score_loop delta words text_l score.
Proof.
  unfold Unicode.score_loop, score_loop. revert score.
  induction words as [|w words IH]; intros score; [done|].
  cbn [List.map fold_left]. by rewrite code_points_contains, IH.
Qed.

(** On a string of code points below 256 the classifier of the engine and
    the classifier on every input are one function. *)
Lemma simple_rule_sentiment_latin1 str_lower s :
  Unicode.lowers str_lower ->
  Unicode.simple_rule_sentiment str_lower (Unicode.PyStr (Unicode.code_points s))
  = simple_rule_sentiment (PyStr s).
Proof.
  intros Hlow%lowers_on_latin1. destruct s as [|c s]; [reflexivity|].
  unfold Unicode.simple_rule_sentiment, simple_rule_sentiment.
  change (Unicode.truthy (Unicode.PyStr (Unicode.code_points (String c s)))) with true.
  change (truthy (PyStr (String c s))) with true.
  cbn [Unicode.is_str is_str negb orb]. cbv zeta.
  rewrite (Hlow _ (code_points_latin1 (String c s))), <- code_points_lower.
  unfold Unicode.POS_WORDS, Unicode.NEG_WORDS.
  by rewrite !code_points_score_loop.
Qed.

(** ** Clamping, influence and difficulty *)

Lemma clamp_bounds cfg val :
  min_rating cfg <= max_rating cfg ->
  min_rating cfg <= _clamp cfg val <= max_rating cfg.
Proof.
  intros Hmm. unfold _clamp, Rmax, Rmin.
  repeat destruct (Rle_dec _ _); lra.
Qed.

Lemma clamp_id cfg val :
  min_rating cfg <= val <= max_rating cfg -> _clamp cfg val = val.
Proof.
  intros Hv. unfold _clamp, Rmax, Rmin.
  repeat destruct (Rle_dec _ _); lra.
Qed.

Lemma py_div_nonzero a b : b <> 0 -> py_div a b = Return (a / b).
Proof. intros Hb. unfold py_div. by destruct (Req_dec_T b 0). Qed.

Lemma math_sqrt_nonneg x : 0 <= x -> math_sqrt x = Return (sqrt x).
Proof. intros Hx. unfold math_sqrt. destruct (Rlt_dec x 0); [lra|done]. Qed.

Lemma div_nonneg a b : 0 <= a -> 0 < b -> 0 <= a / b.
Proof.
  intros Ha Hb. unfold Rdiv. apply Rmult_le_pos; [done|].
  left. by apply Rinv_0_lt_compat.
Qed.

Lemma div_le_compat a b c : 0 < c -> a <= b -> a / c <= b / c.
Proof.
  intros Hc Hab. unfold Rdiv. apply Rmult_le_compat_r; [|done].
  left. by apply Rinv_0_lt_compat.
Qed.

Lemma influence_weight_value cfg r :
  0 < max_rating cfg -> 0 <= r ->
  _influence_weight cfg r = Return (influence_spec (max_rating cfg) r).
Proof.
  intros HM Hr. unfold _influence_weight, influence_spec.
  rewrite py_div_nonzero by lra.
  by rewrite math_sqrt_nonneg by (by apply div_nonneg).
Qed.


Lemma FLOAT_OVERFLOW_large : 2 <= FLOAT_OVERFLOW.
Proof.
  unfold FLOAT_OVERFLOW.
  assert (Hp : 1 <= 2 ^ 53) by (apply pow_R1_Rle; lra).
  assert (Ha : 0 < / 2 ^ 53 <= 1).
  { split; [apply Rinv_0_lt_compat; lra|].
    rewrite <- Rinv_1. apply Rinv_le_contravar; lra. }
  assert (Hb : 2 <= 2 ^ 1023).
  { rewrite <- (pow_1 2) at 1. apply Rle_pow; [lra|lia]. }
  nra.
Qed.

Lemma cube_small x : Rabs x <= 1 -> Rabs (x ^ 3) < FLOAT_OVERFLOW.
Proof.
  intros Hx. rewrite <- RPow_abs.
  assert (H : Rabs x ^ 3 <= 1 ^ 3) by (apply pow_incr; split; [apply Rabs_pos|done]).
  rewrite pow1 in H. pose proof FLOAT_OVERFLOW_large. lra.
Qed.

Lemma float_cube_value x : Rabs (x ^ 3) < FLOAT_OVERFLOW -> float_cube x = Return (x ^ 3).
Proof.
  intros Hx. unfold float_cube.
  destruct (Rle_dec FLOAT_OVERFLOW (Rabs (x ^ 3))); [lra|done].
Qed.


Lemma difficulty_modifier_value cfg t :
  max_rating cfg <> 0 ->
  Rabs ((t / max_rating cfg) ^ 3) < FLOAT_OVERFLOW ->
  _difficulty_modifier cfg t = Return (difficulty_spec (max_rating cfg) t).
Proof.
  intros HM Hc. unfold _difficulty_modifier, difficulty_spec.
  by rewrite py_div_nonzero, float_cube_value.
Qed.

(** Within the bounds of a well-formed configuration the cube is at most 1. *)
Lemma difficulty_modifier_unit cfg t :
  0 < max_rating cfg -> 0 <= t <= max_rating cfg ->
  _difficulty_modifier cfg t = Return (difficulty_spec (max_rating cfg) t).
Proof.
  intros HM Ht. apply difficulty_modifier_value; [lra|].
  apply cube_small. apply Rabs_le.
  assert (H0 : 0 <= t / max_rating cfg) by (apply div_nonneg; lra).
  assert (H1 : t / max_rating cfg <= max_rating cfg / max_rating cfg)
    by (apply div_le_compat; lra).
  replace (max_rating cfg / max_rating cfg) with 1 in H1 by (field; lra).
  lra.
Qed.


(** The worked example of the engine: a like between two users at neutral,
    with the constructor's defaults. *)
Example influence_at_neutral :
  _influence_weight default_config 2.5 = Return (0.1 + 1.1 * sqrt 0.5).
Proof.
  rewrite influence_weight_value by (simpl; lra).
  unfold influence_spec. cbn [max_rating default_config].
  replace (2.5 / 5) with 0.5 by lra. reflexivity.
Qed.

Example difficulty_at_neutral : _difficulty_modifier default_config 2.5 = Return 0.875.
Proof.
  rewrite difficulty_modifier_unit by (cbn [max_rating default_config]; lra).
  unfold difficulty_spec. cbn [max_rating default_config]. f_equal.
  replace (1 - (2.5 / 5) ^ 3) with 0.875 by lra.
  unfold Rmax. destruct (Rle_dec 0.12 0.875); lra.
Qed.

(** C6, counterexample: on the floats of the machine the weight of a rater at
    [max_rating] is not the double 1.2. *)
Lemma influence_weight_at_max_is_not_1_2 :
  Binary64._influence_weight 5 5 <> Return 1.2%float.
Proof.
  intros H.
  assert (Hb : match Binary64._influence_weight 5 5 with
               | Return w => PrimFloat.eqb w 1.2
               | Raise _ => false
               end = true) by (rewrite H; reflexivity).
  vm_compute in Hb. discriminate.
Qed.

(** C6 as amended: the weight is [0.1 + 1.1 * sqrt (rater_rating /
    max_rating)]; on ratings between 0 and a positive [max_rating] it is
    monotonically non-decreasing; in exact arithmetic it is 0.1 at rating 0
    and 1.2 at [max_rating]; on binary64 floats (with [max_rating] 5.0) it is
    the double 0.1 at rating 0 and the double 1.2000000000000002 at
    [max_rating]. *)
Theorem influence_weight_spec (cfg : Config) (r1 r2 : R) :
  0 < max_rating cfg ->
  0 <= r1 <= r2 ->
  r2 <= max_rating cfg ->
  _influence_weight cfg r1 = Return (influence_spec (max_rating cfg) r1)
  /\ _influence_weight cfg r2 = Return (influence_spec (max_rating cfg) r2)
  /\ influence_spec (max_rating cfg) r1 <= influence_spec (max_rating cfg) r2
  /\ _influence_weight cfg 0 = Return 0.1
  /\ _influence_weight cfg (max_rating cfg) = Return 1.2
  /\ Binary64._influence_weight 5 0 = Return 0.1%float
  /\ Binary64._influence_weight 5 5 = Return 1.2000000000000002%float.
Proof.
  intros HM Hr Hr2.
  split; [apply influence_weight_value; lra|].
  split; [apply influence_weight_value; lra|].
  split.
  { unfold influence_spec.
    assert (sqrt (r1 / max_rating cfg) <= sqrt (r2 / max_rating cfg)).
    { apply sqrt_le_1_alt, div_le_compat; lra. }
    lra. }
  split.
  { rewrite influence_weight_value by lra. unfold influence_spec.
    replace (0 / max_rating cfg) with 0 by (unfold Rdiv; ring).
    rewrite sqrt_0. f_equal. lra. }
  split.
  { rewrite influence_weight_value by lra. unfold influence_spec.
    replace (max_rating cfg / max_rating cfg) with 1 by (field; lra).
    rewrite sqrt_1. f_equal. lra. }
  split; reflexivity.
Qed.

Lemma influence_weight_spec_witness :
  _influence_weight default_config 0 = Return 0.1
  /\ _influence_weight default_config 5 = Return 1.2.
Proof.
  assert (HM : 0 < max_rating default_config) by (simpl; lra).
  assert (Hr : 0 <= 1 <= 4) by lra.
  assert (Hr2 : 4 <= max_rating default_config) by (simpl; lra).
  destruct (influence_weight_spec default_config 1 4 HM Hr Hr2)
    as (_ & _ & _ & H0 & H1 & _).
  split; [exact H0 | exact H1].
Defined.




(** ** Reading a rating *)

(** C9: [get_rating] leaves every store as it was, and for a user with no
    entry in the rating store it returns exactly [neutral_rating]. *)
Theorem get_rating_unseen (cfg : Config) (st : State) (user_id : string) :
  exec (get_rating cfg user_id) st = st
  /\ (ratings st !! user_id = None ->
      get_rating cfg user_id st = (Return (neutral cfg), st)).
Proof.
  split; [reflexivity|].
  intros Hnone. unfold get_rating, gets, rating_of. by rewrite Hnone.
Qed.

Lemma get_rating_unseen_witness :
  get_rating default_config "alice" init_state = (Return 2.5, init_state).
Proof.
  apply (get_rating_unseen default_config init_state "alice").
  apply lookup_empty.
Defined.

(** ** The cooldown gate *)

Lemma cooldown_ok_false cfg st now target_user rater_user :
  cooldown_active cfg st now target_user rater_user ->
  _cooldown_ok cfg now target_user rater_user st = (Return false, st).
Proof.
  intros (last_time & Hl & Hd). unfold _cooldown_ok, gets. rewrite Hl.
  destruct (Z.leb_spec (cooldown_days cfg) (timedelta_days (now - last_time)));
    [lia|done].
Qed.

Lemma cooldown_ok_true cfg st now target_user rater_user :
  ~ cooldown_active cfg st now target_user rater_user ->
  _cooldown_ok cfg now target_user rater_user st = (Return true, st).
Proof.
  intros Hn. unfold _cooldown_ok, gets.
  destruct (last_feedback st !! (rater_user, target_user)) as [last_time|] eqn:Hl;
    [|done].
  destruct (Z.leb_spec (cooldown_days cfg) (timedelta_days (now - last_time)));
    [done|].
  exfalso. apply Hn. by exists last_time.
Qed.

Lemma cooldown_active_dec cfg st now target_user rater_user :
  cooldown_active cfg st now target_user rater_user
  \/ ~ cooldown_active cfg st now target_user rater_user.
Proof.
  unfold cooldown_active.
  destruct (last_feedback st !! (rater_user, target_user)) as [last_time|] eqn:Hl.
  - destruct (Z.lt_ge_cases (timedelta_days (now - last_time)) (cooldown_days cfg)).
    + left. by exists last_time.
    + right. intros (t & [= <-] & Ht). lia.
  - right. by intros (t & [=] & _).
Qed.

(** ** One feedback, path by path *)

Lemma process_feedback_blocked cfg clk target_user rater_user feedback_type comment_text st :
  cooldown_active cfg st (t_gate clk) target_user rater_user ->
  process_feedback cfg clk target_user rater_user feedback_type comment_text st
  = (Return (rating_of cfg st target_user), st).
Proof.
  intros Hcd. unfold process_feedback, bind.
  by rewrite (cooldown_ok_false _ _ _ _ _ Hcd).
Qed.

Lemma alter_lookup_insert (f : Meta -> Meta) (uid : string) (x : Meta)
    (M : gmap string Meta) :
  alter f uid (<[uid := x]> M) = <[uid := f x]> M.
Proof. apply alter_insert_eq. Qed.

Lemma meta_commit clk direction ev (uid : string) (M : gmap string Meta) :
  let M1 := match M !! uid with
            | Some _ => M
            | None => <[uid := default_meta (t_default clk)]> M
            end in
  let M2 := alter incr_received uid M1 in
  let M3 := if (direction =? 1)%Z then alter incr_positive uid M2
            else if (direction =? -1)%Z then alter incr_negative uid M2
            else M2 in
  alter (append_history ev) uid (alter (set_last_updated (t_commit clk)) uid M3)
  = <[uid := committed_meta clk direction ev (M !! uid)]> M.
Proof.
  intros M1 M2 M3.
  assert (HM1 : M1 = <[uid := default (default_meta (t_default clk)) (M !! uid)]> M).
  { subst M1. destruct (M !! uid) as [m|] eqn:Hm; simpl; [|done].
    symmetry. by apply insert_id. }
  subst M3 M2. rewrite HM1. unfold committed_meta.
  set (m := default (default_meta (t_default clk)) (M !! uid)).
  rewrite alter_lookup_insert.
  destruct (Z.eqb_spec direction 1) as [->|_];
    [|destruct (direction =? -1)%Z];
    rewrite ?alter_lookup_insert; reflexivity.
Qed.

Lemma process_feedback_open cfg clk target_user rater_user feedback_type comment_text st :
  ~ cooldown_active cfg st (t_gate clk) target_user rater_user ->
  process_feedback cfg clk target_user rater_user feedback_type comment_text st
  = match polarity_of cfg feedback_type comment_text with
    | Raise e => (Raise e, st)
    | Return polarity =>
        match _influence_weight cfg (rating_of cfg st rater_user) with
        | Raise e => (Raise e, st)
        | Return influence =>
            match type_mult_of feedback_type with
            | Raise e => (Raise e, st)
            | Return type_mult =>
                match change_of cfg polarity influence type_mult
                                (rating_of cfg st target_user) with
                | Raise e => (Raise e, st)
                | Return change =>
                    (Return (_clamp cfg (rating_of cfg st target_user + change)),
                     committed_state cfg clk target_user rater_user feedback_type
                                     polarity change st)
                end
            end
        end
    end.
Proof.
  intros Hopen. unfold process_feedback, bind at 1.
  rewrite (cooldown_ok_true _ _ _ _ _ Hopen). cbn [negb].
  unfold bind at 1, lift at 1.
  destruct (polarity_of cfg feedback_type comment_text) as [polarity|e]; [|done].
  unfold bind at 1, get_rating at 1, gets at 1.
  unfold bind at 1, get_rating at 1, gets at 1.
  unfold bind at 1, lift at 1.
  destruct (_influence_weight cfg (rating_of cfg st rater_user)) as [influence|e]; [|done].
  unfold bind at 1, lift at 1.
  destruct (type_mult_of feedback_type) as [type_mult|e]; [|done].
  unfold change_of.
  set (direction := direction_of polarity).
  assert (Hcommit : forall change,
    (modify (with_ratings <[target_user := _clamp cfg (rating_of cfg st target_user + change)]>) ;;
     meta_getitem (t_default clk) target_user ;;
     update_meta target_user incr_received ;;
     (if (direction =? 1)%Z then update_meta target_user incr_positive
      else if (direction =? -1)%Z then update_meta target_user incr_negative
      else ret tt) ;;
     update_meta target_user (set_last_updated (t_commit clk)) ;;
     update_meta target_user
       (append_history
          (FeedbackEvent (t_commit clk) rater_user feedback_type polarity
             (rating_of cfg st target_user) (round4 change)
             (_clamp cfg (rating_of cfg st target_user + change)))) ;;
     modify (with_last_feedback <[(rater_user, target_user) := t_commit clk]>) ;;
     ret (_clamp cfg (rating_of cfg st target_user + change)))%py st
    = (Return (_clamp cfg (rating_of cfg st target_user + change)),
       committed_state cfg clk target_user rater_user feedback_type polarity change st)).
  { intros change.
    pose proof (meta_commit clk direction
      (FeedbackEvent (t_commit clk) rater_user feedback_type polarity
         (rating_of cfg st target_user) (round4 change)
         (_clamp cfg (rating_of cfg st target_user + change)))
      target_user (meta st)) as Hm.
    cbv zeta in Hm.
    unfold committed_state. fold direction. rewrite <- Hm.
    unfold bind, modify, meta_getitem, update_meta, modify, ret, with_ratings,
      with_meta, with_last_feedback. cbn [ratings meta last_feedback appeal_log].
    destruct (meta st !! target_user); cbn [ratings meta last_feedback appeal_log];
      destruct (direction =? 1)%Z; [| destruct (direction =? -1)%Z | | destruct (direction =? -1)%Z];
      reflexivity. }
  destruct (direction =? 0)%Z.
  - unfold bind at 1, ret at 1. apply Hcommit.
  - unfold bind at 1. unfold bind at 1, lift at 1.
    destruct (_difficulty_modifier cfg (rating_of cfg st target_user)) as [d|e]; [|done].
    unfold ret at 1. apply Hcommit.
Qed.

Lemma process_feedback_exec cfg clk target_user rater_user feedback_type comment_text st :
  exec (process_feedback cfg clk target_user rater_user feedback_type comment_text) st = st
  \/ exists polarity change,
       exec (process_feedback cfg clk target_user rater_user feedback_type comment_text) st
       = committed_state cfg clk target_user rater_user feedback_type polarity change st.
Proof.
  unfold exec.
  destruct (cooldown_active_dec cfg st (t_gate clk) target_user rater_user) as [Hcd|Hopen].
  - left. by rewrite process_feedback_blocked.
  - rewrite process_feedback_open by done.
    destruct (polarity_of cfg feedback_type comment_text) as [polarity|e]; [|by left].
    destruct (_influence_weight cfg (rating_of cfg st rater_user)) as [influence|e];
      [|by left].
    destruct (type_mult_of feedback_type) as [type_mult|e]; [|by left].
    destruct (change_of cfg polarity influence type_mult (rating_of cfg st target_user))
      as [change|e]; [|by left].
    right. by exists polarity, change.
Qed.

Lemma round4_0 : round4 0 = 0.
Proof.
  unfold round4, round_half_even.
  replace (0 * 10000) with 0 by ring.
  assert (Hi : Int_part 0 = 0%Z) by (symmetry; apply Int_part_spec; lra).
  rewrite fp_R0, Hi.
  destruct (Rlt_dec 0 (1 / 2)) as [_|Hn]; [|lra].
  simpl. unfold Rdiv. ring.
Qed.

Lemma rating_of_bounds cfg st user_id :
  min_rating cfg <= neutral cfg <= max_rating cfg ->
  ratings_clamped cfg st ->
  min_rating cfg <= rating_of cfg st user_id <= max_rating cfg.
Proof.
  intros Hn Hst. unfold rating_of.
  destruct (ratings st !! user_id) as [r|] eqn:Hr; simpl; [by apply (Hst user_id)|done].
Qed.

Lemma like_change_bounds : 0 < like_change < 1.
Proof.
  unfold like_change.
  assert (H0 : 0 <= sqrt 0.5) by apply sqrt_pos.
  assert (H1 : sqrt 0.5 <= 1).
  { rewrite <- sqrt_1. apply sqrt_le_1_alt. lra. }
  nra.
Qed.

(** The first call of the script at the end of the source file, for any two
    users: a like on fresh stores. *)
Lemma first_like clk target_user rater_user :
  process_feedback default_config clk target_user rater_user "like" PyNone init_state
  = (Return (2.5 + like_change),
     committed_state default_config clk target_user rater_user "like" "positive"
                     like_change init_state).
Proof.
  assert (Hopen : ~ cooldown_active default_config init_state (t_gate clk)
                    target_user rater_user).
  { intros (t & Ht & _). cbn in Ht. by rewrite lookup_empty in Ht. }
  rewrite (process_feedback_open _ _ _ _ _ _ _ Hopen).
  change (polarity_of default_config "like" PyNone) with (@Return string "positive").
  assert (Hr : forall u, rating_of default_config init_state u = 2.5).
  { intros u. unfold rating_of. cbn [ratings init_state]. by rewrite lookup_empty. }
  rewrite !Hr.
  rewrite influence_at_neutral.
  change (type_mult_of "like") with (Return 0.6).
  unfold change_of. change (direction_of "positive") with 1%Z. cbn [Z.eqb Pos.eqb].
  rewrite difficulty_at_neutral.
  cbn [base_change default_config]. fold like_change.
  rewrite clamp_id; [reflexivity|].
  pose proof like_change_bounds. cbn [min_rating max_rating default_config]. lra.
Qed.

(** ** The claims about one feedback *)

(** C3: when a cooldown entry exists for (rater, target) and the whole days
    elapsed since its timestamp are fewer than [cooldown_days], the call
    returns the target's current rating and every store (ratings, metadata
    with counters, timestamps and histories, cooldown tracker, appeal log)
    is left as it was. *)
Theorem cooldown_blocked_is_noop (cfg : Config) (clk : Clock)
    (target_user rater_user feedback_type : string) (comment_text : PyValue)
    (st : State) (last_time : Z) :
  last_feedback st !! (rater_user, target_user) = Some last_time ->
  (timedelta_days (t_gate clk - last_time) < cooldown_days cfg)%Z ->
  process_feedback cfg clk target_user rater_user feedback_type comment_text st
  = (Return (rating_of cfg st target_user), st).
Proof.
  intros Hl Hd. apply process_feedback_blocked. by exists last_time.
Qed.

(** C1, counterexample: a like from bob to alice, then one second later a
    feedback of type spam from bob to alice: the second call returns
    alice's rating and raises nothing. *)
Lemma invalid_type_under_cooldown_returns :
  let clk1 := {| t_gate := 0; t_default := 0; t_commit := 0 |} in
  let clk2 := {| t_gate := 1000000; t_default := 1000000; t_commit := 1000000 |} in
  let st1 := exec (process_feedback default_config clk1 "alice" "bob" "like" PyNone)
                  init_state in
  process_feedback default_config clk2 "alice" "bob" "spam" PyNone st1
  = (Return (2.5 + like_change), st1)
  /\ ~ (exists msg, fst (process_feedback default_config clk2 "alice" "bob" "spam" PyNone st1)
                    = Raise (ValueError msg)).
Proof.
  intros clk1 clk2 st1.
  assert (Hst1 : st1 = committed_state default_config clk1 "alice" "bob" "like" "positive"
                                       like_change init_state).
  { subst st1. unfold exec. by rewrite first_like. }
  assert (Hcall : process_feedback default_config clk2 "alice" "bob" "spam" PyNone st1
                  = (Return (2.5 + like_change), st1)).
  { rewrite process_feedback_blocked.
    - do 2 f_equal. rewrite Hst1. unfold rating_of, committed_state.
      cbn [ratings]. rewrite lookup_insert_eq. cbn [default from_option].
      unfold Datatypes.id, rating_of. cbn [ratings init_state].
      rewrite lookup_empty. cbn [default from_option]. unfold Datatypes.id.
      apply clamp_id. pose proof like_change_bounds.
      cbn [min_rating max_rating neutral default_config]. lra.
    - exists 0%Z. split; [|reflexivity].
      rewrite Hst1. unfold committed_state. cbn [last_feedback].
      apply lookup_insert_eq. }
  split; [exact Hcall|].
  intros (msg & Hmsg). rewrite Hcall in Hmsg. discriminate.
Qed.

(** C1 as amended: a call whose [feedback_type] is none of like, dislike,
    comment, and which no active cooldown entry for (rater, target) blocks,
    raises [ValueError] to its caller and leaves the rating store, the
    metadata store, the cooldown tracker and the appeal log unchanged; when
    such an entry is active the call raises nothing: it returns the target's
    current rating, the stores unchanged as well. *)
Theorem invalid_feedback_type (cfg : Config) (clk : Clock)
    (target_user rater_user feedback_type : string) (comment_text : PyValue) (st : State) :
  feedback_type <> "like" ->
  feedback_type <> "dislike" ->
  feedback_type <> "comment" ->
  (~ cooldown_active cfg st (t_gate clk) target_user rater_user ->
   process_feedback cfg clk target_user rater_user feedback_type comment_text st
   = (Raise (ValueError "feedback_type must be 'like'|'dislike'|'comment'"), st))
  /\ (cooldown_active cfg st (t_gate clk) target_user rater_user ->
      process_feedback cfg clk target_user rater_user feedback_type comment_text st
      = (Return (rating_of cfg st target_user), st)).
Proof.
  intros Hl Hd Hc. split.
  - intros Hopen. rewrite process_feedback_open by done.
    unfold polarity_of.
    destruct (String.eqb_spec feedback_type "like"); [done|].
    destruct (String.eqb_spec feedback_type "dislike"); [done|].
    destruct (String.eqb_spec feedback_type "comment"); [done|].
    reflexivity.
  - apply process_feedback_blocked.
Qed.

Lemma invalid_feedback_type_witness :
  process_feedback default_config {| t_gate := 0; t_default := 0; t_commit := 0 |}
                   "alice" "bob" "spam" PyNone init_state
  = (Raise (ValueError "feedback_type must be 'like'|'dislike'|'comment'"), init_state).
Proof.
  apply (invalid_feedback_type default_config {| t_gate := 0; t_default := 0; t_commit := 0 |}
           "alice" "bob" "spam" PyNone init_state); try discriminate.
  intros (t & Ht & _). cbn in Ht. rewrite lookup_empty in Ht. discriminate.
Defined.

Lemma cooldown_blocked_is_noop_witness :
  let st := {| ratings := {[ "alice" := 3 ]}; meta := ∅;
               last_feedback := {[ ("bob", "alice") := 0%Z ]}; appeal_log := [] |} in
  process_feedback default_config
                   {| t_gate := 86400000000; t_default := 0; t_commit := 0 |}
                   "alice" "bob" "like" PyNone st
  = (Return (rating_of default_config st "alice"), st).
Proof.
  intros st.
  apply (cooldown_blocked_is_noop default_config _ "alice" "bob" "like" PyNone st 0).
  - reflexivity.
  - reflexivity.
Defined.

Lemma deque_append_drops {A : Type} (d : list A) (x : A) :
  deque_append d x
  = ((if (500 <=? List.length d)%nat then List.tl d else d) ++ [x])%list.
Proof. unfold deque_append, HISTORY_MAXLEN. by destruct (500 <=? List.length d)%nat. Qed.

Lemma polarity_neutral_is_comment cfg feedback_type comment_text :
  polarity_of cfg feedback_type comment_text = Return "neutral" ->
  feedback_type = "comment" /\ sentiment_from_text cfg comment_text = "neutral".
Proof.
  unfold polarity_of.
  destruct (String.eqb_spec feedback_type "like"); [discriminate|].
  destruct (String.eqb_spec feedback_type "dislike"); [discriminate|].
  destruct (String.eqb_spec feedback_type "comment"); [|discriminate].
  intros [= H]. done.
Qed.

(** C5, counterexample: two accepted neutral comments on fresh stores.
    With [max_rating] 0 the call raises before anything is counted; with a
    neutral rating of 10 above a [max_rating] of 5 the call returns 5, not
    the rating of 10 the target had. *)
Lemma neutral_feedback_raises_or_moves :
  let clk := {| t_gate := 0; t_default := 0; t_commit := 0 |} in
  let cfg0 := {| base_change := 0.06; min_rating := 0; max_rating := 0; neutral := 0;
                 decay_half_life_days := 90; cooldown_days := 7;
                 sentiment_pipe := None |} in
  let cfg10 := {| base_change := 0.06; min_rating := 0; max_rating := 5; neutral := 10;
                  decay_half_life_days := 90; cooldown_days := 7;
                  sentiment_pipe := None |} in
  let text := PyStr "it is a thing" in
  ~ cooldown_active cfg0 init_state (t_gate clk) "alice" "bob"
  /\ polarity_of cfg0 "comment" text = Return "neutral"
  /\ (exists msg,
        process_feedback cfg0 clk "alice" "bob" "comment" text init_state
        = (Raise (ZeroDivisionError msg), init_state))
  /\ ~ cooldown_active cfg10 init_state (t_gate clk) "alice" "bob"
  /\ polarity_of cfg10 "comment" text = Return "neutral"
  /\ get_rating cfg10 "alice" init_state = (Return 10, init_state)
  /\ fst (process_feedback cfg10 clk "alice" "bob" "comment" text init_state) = Return 5.
Proof.
  intros clk cfg0 cfg10 text.
  assert (Hopen : forall cfg, ~ cooldown_active cfg init_state (t_gate clk) "alice" "bob").
  { intros cfg (t & Ht & _). cbn in Ht. by rewrite lookup_empty in Ht. }
  split; [apply Hopen|]. split; [reflexivity|]. split.
  { rewrite (process_feedback_open _ _ _ _ _ _ _ (Hopen cfg0)).
    change (polarity_of cfg0 "comment" text) with (@Return string "neutral").
    unfold _influence_weight, py_div. cbn [max_rating cfg0].
    destruct (Req_dec_T 0 0) as [_|Hne]; [by eexists|by destruct Hne]. }
  split; [apply Hopen|]. split; [reflexivity|].
  assert (Hr : forall u, rating_of cfg10 init_state u = 10).
  { intros u. unfold rating_of. cbn [ratings init_state]. by rewrite lookup_empty. }
  split; [unfold get_rating, gets; by rewrite Hr|].
  rewrite (process_feedback_open _ _ _ _ _ _ _ (Hopen cfg10)).
  change (polarity_of cfg10 "comment" text) with (@Return string "neutral").
  rewrite !Hr.
  rewrite influence_weight_value by (cbn [max_rating cfg10]; lra).
  change (type_mult_of "comment") with (Return 1).
  unfold change_of. change (direction_of "neutral") with 0%Z. cbn [Z.eqb fst].
  f_equal. unfold _clamp, Rmax, Rmin. cbn [min_rating max_rating cfg10].
  repeat destruct (Rle_dec _ _); lra.
Qed.

(** C5 as amended: an accepted feedback whose resolved polarity is neutral,
    for which the influence weight of the rater can be computed ([max_rating]
    is not 0 and the rater's rating over [max_rating] is not negative),
    produces a change of 0: it returns and stores the target's old rating
    clamped, which is the old rating itself whenever that lies within the
    bounds; it adds 1 to [received_count] (counted from zero for a target
    without metadata), leaves [positive_count] and [negative_count] as they
    were, sets [last_updated] to the time of the call and appends to the
    history (the oldest of 500 events dropped) a record whose change is 0. *)
Theorem neutral_feedback_spec (cfg : Config) (clk : Clock)
    (target_user rater_user feedback_type : string) (comment_text : PyValue) (st : State) :
  max_rating cfg <> 0 ->
  0 <= default (neutral cfg) (ratings st !! rater_user) / max_rating cfg ->
  ~ cooldown_active cfg st (t_gate clk) target_user rater_user ->
  polarity_of cfg feedback_type comment_text = Return "neutral" ->
  let old_rating := default (neutral cfg) (ratings st !! target_user) in
  let returned := Rmax (min_rating cfg) (Rmin (max_rating cfg) old_rating) in
  let m := default {| received_count := 0; positive_count := 0; negative_count := 0;
                      last_updated := t_default clk; history := [] |}
                   (meta st !! target_user) in
  let event := FeedbackEvent (t_commit clk) rater_user feedback_type "neutral"
                             old_rating 0 returned in
  let st' := exec (process_feedback cfg clk target_user rater_user feedback_type
                                    comment_text) st in
  fst (process_feedback cfg clk target_user rater_user feedback_type comment_text st)
  = Return returned
  /\ ratings st' !! target_user = Some returned
  /\ (min_rating cfg <= old_rating <= max_rating cfg -> returned = old_rating)
  /\ meta st' !! target_user
     = Some {| received_count := received_count m + 1;
               positive_count := positive_count m;
               negative_count := negative_count m;
               last_updated := t_commit clk;
               history := ((if (500 <=? List.length (history m))%nat
                            then List.tl (history m) else history m)
                           ++ [event])%list |}.
Proof.
  intros HM Hrater Hopen Hpol old_rating returned m event st'.
  destruct (polarity_neutral_is_comment _ _ _ Hpol) as [Hft _].
  assert (Hres : process_feedback cfg clk target_user rater_user feedback_type
                                  comment_text st
                 = (Return returned,
                    committed_state cfg clk target_user rater_user feedback_type
                                    "neutral" 0 st)).
  { rewrite process_feedback_open by done. rewrite Hpol.
    unfold _influence_weight. rewrite py_div_nonzero by done.
    rewrite math_sqrt_nonneg by exact Hrater.
    rewrite Hft. change (type_mult_of "comment") with (Return 1).
    unfold change_of. change (direction_of "neutral") with 0%Z. cbn [Z.eqb].
    by rewrite Rplus_0_r. }
  subst st'. unfold exec. rewrite Hres. cbn [fst snd].
  split; [done|]. split; [|split].
  - unfold committed_state. cbn [ratings]. rewrite lookup_insert_eq.
    f_equal. by rewrite Rplus_0_r.
  - intros Hin. subst returned. unfold Rmax, Rmin.
    repeat destruct (Rle_dec _ _); lra.
  - unfold committed_state. cbn [meta]. rewrite lookup_insert_eq.
    unfold committed_meta. change (direction_of "neutral") with 0%Z. cbn [Z.eqb].
    rewrite round4_0, Rplus_0_r, deque_append_drops. reflexivity.
Qed.

Lemma neutral_feedback_spec_witness :
  let clk := {| t_gate := 5; t_default := 6; t_commit := 7 |} in
  let st' := exec (process_feedback default_config clk "alice" "bob" "comment"
                                    (PyStr "it is a thing")) init_state in
  ratings st' !! "alice" = Some 2.5
  /\ meta st' !! "alice"
     = Some {| received_count := 1; positive_count := 0; negative_count := 0;
               last_updated := 7;
               history := [FeedbackEvent 7 "bob" "comment" "neutral" 2.5 0 2.5] |}.
Proof.
  intros clk st'.
  assert (HM : max_rating default_config <> 0) by (cbn [max_rating default_config]; lra).
  assert (Hrater : 0 <= default (neutral default_config)
                          (ratings init_state !! "bob") / max_rating default_config).
  { cbn [ratings init_state]. rewrite lookup_empty.
    cbn [default from_option neutral max_rating default_config].
    unfold Datatypes.id. lra. }
  assert (Hopen : ~ cooldown_active default_config init_state (t_gate clk) "alice" "bob").
  { intros (t & Ht & _). cbn in Ht. by rewrite lookup_empty in Ht. }
  assert (Hpol : polarity_of default_config "comment" (PyStr "it is a thing")
                 = Return "neutral") by reflexivity.
  destruct (neutral_feedback_spec default_config clk "alice" "bob" "comment"
              (PyStr "it is a thing") init_state HM Hrater Hopen Hpol)
    as (_ & Hrating & Hsame & Hmeta).
  fold st' in Hrating, Hmeta.
  cbn [ratings meta init_state] in Hrating, Hsame, Hmeta.
  rewrite !lookup_empty in Hrating, Hsame, Hmeta.
  cbn [default from_option neutral min_rating max_rating default_config
       received_count positive_count negative_count history List.length
       Nat.leb app t_commit] in Hrating, Hsame, Hmeta.
  unfold Datatypes.id in Hrating, Hsame, Hmeta.
  rewrite Hsame in Hrating, Hmeta by lra.
  split; [exact Hrating | exact Hmeta].
Defined.

(** C10, counterexample: alice likes herself on fresh stores.  The call is
    accepted, and the rating and the metadata of the rater are not what they
    were. *)
Lemma self_feedback_changes_rater :
  let clk := {| t_gate := 0; t_default := 0; t_commit := 0 |} in
  let st' := exec (process_feedback default_config clk "alice" "alice" "like" PyNone)
                  init_state in
  ~ cooldown_active default_config init_state (t_gate clk) "alice" "alice"
  /\ rating_of default_config init_state "alice" = 2.5
  /\ 2.5 < rating_of default_config st' "alice"
  /\ meta init_state !! "alice" = None
  /\ received_count <$> meta st' !! "alice" = Some 1%Z.
Proof.
  intros clk st'.
  assert (Hst' : st' = committed_state default_config clk "alice" "alice" "like" "positive"
                                       like_change init_state).
  { subst st'. unfold exec. by rewrite first_like. }
  assert (Hr : rating_of default_config init_state "alice" = 2.5).
  { unfold rating_of. cbn [ratings init_state]. by rewrite lookup_empty. }
  split. { intros (t & Ht & _). cbn in Ht. by rewrite lookup_empty in Ht. }
  split; [exact Hr|]. split; [|split].
  - rewrite Hst'. unfold rating_of at 1, committed_state. cbn [ratings].
    rewrite lookup_insert_eq. cbn [default from_option]. unfold Datatypes.id. rewrite Hr.
    pose proof like_change_bounds.
    rewrite clamp_id; cbn [min_rating max_rating default_config]; lra.
  - apply lookup_empty.
  - rewrite Hst'. unfold committed_state. cbn [meta]. rewrite lookup_insert_eq.
    cbn [init_state meta]. by rewrite lookup_empty.
Qed.

(** C10 as amended: whatever its outcome, a call of [process_feedback] can
    modify only the target's entry of the rating store, the target's entry of
    the metadata store and the cooldown entry of the ordered pair (rater,
    target).  Every user other than the target keeps rating and metadata, in
    particular the rater when the rater is not the target; every other
    cooldown key and the appeal log are unchanged. *)
Theorem process_feedback_frame (cfg : Config) (clk : Clock)
    (target_user rater_user feedback_type : string) (comment_text : PyValue) (st : State) :
  let st' := exec (process_feedback cfg clk target_user rater_user feedback_type
                                    comment_text) st in
  (forall u : string, u <> target_user ->
     ratings st' !! u = ratings st !! u /\ meta st' !! u = meta st !! u)
  /\ (rater_user <> target_user ->
      ratings st' !! rater_user = ratings st !! rater_user
      /\ meta st' !! rater_user = meta st !! rater_user)
  /\ (forall key : string * string, key <> (rater_user, target_user) ->
        last_feedback st' !! key = last_feedback st !! key)
  /\ appeal_log st' = appeal_log st.
Proof.
  intros st'.
  assert (Husers : forall u : string, u <> target_user ->
            ratings st' !! u = ratings st !! u /\ meta st' !! u = meta st !! u).
  { intros u Hu. subst st'.
    destruct (process_feedback_exec cfg clk target_user rater_user feedback_type
                comment_text st) as [->|(polarity & change & ->)]; [done|].
    unfold committed_state. cbn [ratings meta].
    by rewrite !lookup_insert_ne. }
  split; [exact Husers|]. split; [apply Husers|].
  subst st'.
  destruct (process_feedback_exec cfg clk target_user rater_user feedback_type
              comment_text st) as [->|(polarity & change & ->)]; [done|].
  unfold committed_state. cbn [last_feedback appeal_log].
  split; [|done]. intros key Hkey. by rewrite lookup_insert_ne.
Qed.

Lemma process_feedback_frame_witness :
  let clk := {| t_gate := 0; t_default := 0; t_commit := 0 |} in
  let st' := exec (process_feedback default_config clk "alice" "bob" "like" PyNone)
                  init_state in
  ratings st' !! "bob" = None /\ meta st' !! "bob" = None.
Proof.
  intros clk st'.
  destruct (process_feedback_frame default_config clk "alice" "bob" "like" PyNone init_state)
    as (_ & Hrater & _).
  apply Hrater. discriminate.
Defined.

(** ** The decay sweep *)

Lemma decay_step_other cfg now k uid m st u :
  u <> uid ->
  ratings (decay_step cfg now k uid m st) !! u = ratings st !! u
  /\ meta (decay_step cfg now k uid m st) !! u = meta st !! u.
Proof.
  intros Hu. unfold decay_step.
  destruct (Rle_dec _ 0); [done|].
  cbn [ratings meta with_ratings with_meta].
  by rewrite lookup_insert_ne, !lookup_alter_ne.
Qed.

Lemma decay_step_frame cfg now k uid m st :
  last_feedback (decay_step cfg now k uid m st) = last_feedback st
  /\ appeal_log (decay_step cfg now k uid m st) = appeal_log st.
Proof. unfold decay_step. by destruct (Rle_dec _ 0). Qed.

Lemma decay_loop_swept cfg now k st0 (items : gmap string Meta) :
  swept cfg now k st0 (map_fold (decay_step cfg now k) st0 items) items.
Proof.
  apply (map_fold_weak_ind (swept cfg now k st0)).
  - repeat split; rewrite lookup_empty; done.
  - intros uid m items' st Hfresh (Hlf & Hal & Hst).
    destruct (decay_step_frame cfg now k uid m st) as [Hlf' Hal'].
    split; [congruence|]. split; [congruence|].
    intros u. destruct (decide (u = uid)) as [->|Hu].
    + rewrite lookup_insert_eq. cbv zeta.
      pose proof (Hst uid) as Huid. rewrite Hfresh in Huid. destruct Huid as [Hr Hm].
      unfold decay_step.
      destruct (Rle_dec (total_seconds (now - last_updated m) / 86400) 0); [done|].
      cbn [ratings meta with_ratings with_meta].
      rewrite lookup_insert_eq, !lookup_alter_eq, Hm.
      assert (Hold : rating_of cfg st uid = rating_of cfg st0 uid).
      { unfold rating_of. by rewrite Hr. }
      rewrite Hold. split; [done|].
      by destruct (meta st0 !! uid).
    + rewrite lookup_insert_ne by done.
      destruct (decay_step_other cfg now k uid m st u Hu) as [-> ->].
      apply Hst.
Qed.

(** C4: for a user with a metadata entry [m], [apply_decay] works out
    [days], the time from [m]'s [last_updated] to the sweep, in days.  Up to
    0 days the user's rating and metadata stay as they are.  Beyond, with
    [k = ln 2 / max(1, decay_half_life_days)], the rating read before the
    sweep as [old_rating] becomes
    [max(min_rating, min(max_rating, neutral + (old_rating - neutral) * exp(-k * days)))],
    [last_updated] becomes the time of the sweep, and the history is the old
    one (its oldest item dropped once it holds 500) followed by a decay event
    with the time of the sweep, the old and the new rating, which is its last
    item.  The three counters keep their values in both cases, the cooldown
    tracker and the appeal log are unchanged, and the sweep raises nothing. *)
Theorem apply_decay_spec (cfg : Config) (now : Z) (st : State) (uid : string) (m : Meta) :
  meta st !! uid = Some m ->
  let st' := exec (apply_decay cfg now) st in
  let days := IZR (now - last_updated m) / 1000000 / 86400 in
  let k := ln 2 / Rmax 1 (decay_half_life_days cfg) in
  let old_rating := default (neutral cfg) (ratings st !! uid) in
  let decayed := neutral cfg + (old_rating - neutral cfg) * exp (- k * days) in
  let new_rating := Rmax (min_rating cfg) (Rmin (max_rating cfg) decayed) in
  let event := DecayEvent now old_rating new_rating in
  let kept := if (500 <=? List.length (history m))%nat
              then List.tl (history m) else history m in
  fst (apply_decay cfg now st) = Return tt
  /\ (days <= 0 -> ratings st' !! uid = ratings st !! uid /\ meta st' !! uid = Some m)
  /\ (0 < days ->
      ratings st' !! uid = Some new_rating
      /\ meta st' !! uid
         = Some {| received_count := received_count m;
                   positive_count := positive_count m;
                   negative_count := negative_count m;
                   last_updated := now;
                   history := (kept ++ [event])%list |}
      /\ last (kept ++ [event])%list = Some event
      /\ (List.length (kept ++ [event])%list
          = if (500 <=? List.length (history m))%nat
            then List.length (history m) else S (List.length (history m))))
  /\ (exists m', meta st' !! uid = Some m'
                 /\ received_count m' = received_count m
                 /\ positive_count m' = positive_count m
                 /\ negative_count m' = negative_count m)
  /\ last_feedback st' = last_feedback st
  /\ appeal_log st' = appeal_log st.
Proof.
  intros Hm st' days k old_rating decayed new_rating event kept.
  destruct (decay_loop_swept cfg now k st (meta st)) as (Hlf & Hal & Hst).
  specialize (Hst uid). rewrite Hm in Hst. cbv zeta in Hst.
  change (total_seconds (now - last_updated m) / 86400) with days in Hst.
  change (map_fold (decay_step cfg now k) st (meta st)) with st' in *.
  split; [reflexivity|].
  destruct (Rle_dec days 0) as [Hle|Hgt].
  - destruct Hst as [Hr Hmeta]. rewrite Hmeta.
    split; [done|]. split; [lra|]. split; [|done].
    by exists m.
  - destruct Hst as [Hr Hmeta]. rewrite Hmeta. cbn [fmap option_fmap option_map].
    assert (Hhist : history (append_history (DecayEvent now (rating_of cfg st uid)
                       (_clamp cfg (neutral cfg + (rating_of cfg st uid - neutral cfg)
                                                  * exp (- k * days))))
                       (set_last_updated now m))
                    = (kept ++ [event])%list).
    { unfold append_history, set_last_updated. cbn [history].
      by rewrite deque_append_drops. }
    split; [lra|]. split; [|split; [by eexists|done]].
    intros _. split; [exact Hr|]. split; [|split].
    + f_equal. rewrite <- Hhist. reflexivity.
    + apply last_snoc.
    + rewrite length_app. cbn [List.length]. subst kept.
      destruct (500 <=? List.length (history m))%nat eqn:Hfull.
      * apply Nat.leb_le in Hfull. destruct (history m); cbn in *; lia.
      * lia.
Qed.

Lemma apply_decay_spec_witness :
  let m := {| received_count := 3; positive_count := 2; negative_count := 1;
              last_updated := 0; history := [] |} in
  let st := {| ratings := {[ "alice" := 4 ]}; meta := {[ "alice" := m ]};
               last_feedback := ∅; appeal_log := [] |} in
  let st' := exec (apply_decay default_config 86400000000) st in
  let new_rating := Rmax 0 (Rmin 5 (2.5 + (4 - 2.5) * exp (- (ln 2 / Rmax 1 90) * 1))) in
  ratings st' !! "alice" = Some new_rating
  /\ meta st' !! "alice"
     = Some {| received_count := 3; positive_count := 2; negative_count := 1;
               last_updated := 86400000000;
               history := [DecayEvent 86400000000 4 new_rating] |}.
Proof.
  intros m st st' new_rating.
  assert (Hm : meta st !! "alice" = Some m) by apply lookup_singleton_eq.
  destruct (apply_decay_spec default_config 86400000000 st "alice" m Hm)
    as (_ & _ & Hpos & _).
  assert (Hdays : IZR (86400000000 - last_updated m) / 1000000 / 86400 = 1).
  { replace (86400000000 - last_updated m)%Z with 86400000000%Z by reflexivity. lra. }
  assert (Hold : ratings st !! "alice" = Some 4) by apply lookup_singleton_eq.
  rewrite Hdays, Hold in Hpos.
  destruct Hpos as (Hrating & Hmeta & _); [lra|].
  split; [exact Hrating | exact Hmeta].
Defined.

(** ** The clamp invariant *)

Lemma committed_state_clamped cfg clk target_user rater_user feedback_type polarity change st :
  min_rating cfg <= max_rating cfg ->
  ratings_clamped cfg st ->
  ratings_clamped cfg (committed_state cfg clk target_user rater_user feedback_type
                                       polarity change st).
Proof.
  intros Hmm Hst u r. unfold committed_state. cbn [ratings].
  destruct (decide (u = target_user)) as [->|Hu].
  - rewrite lookup_insert_eq. intros [= <-]. by apply clamp_bounds.
  - rewrite lookup_insert_ne by done. apply Hst.
Qed.

Lemma process_feedback_clamped cfg clk target_user rater_user feedback_type comment_text st :
  min_rating cfg <= max_rating cfg ->
  ratings_clamped cfg st ->
  ratings_clamped cfg
    (exec (process_feedback cfg clk target_user rater_user feedback_type comment_text) st).
Proof.
  intros Hmm Hst.
  destruct (process_feedback_exec cfg clk target_user rater_user feedback_type
              comment_text st) as [->|(polarity & change & ->)]; [done|].
  by apply committed_state_clamped.
Qed.

Lemma bulk_loop_clamped cfg feedbacks results st :
  min_rating cfg <= max_rating cfg ->
  ratings_clamped cfg st ->
  ratings_clamped cfg (exec (bulk_loop cfg feedbacks results) st).
Proof.
  intros Hmm. revert results st.
  induction feedbacks as [|[clk fb] rest IH]; intros results st Hst; [done|].
  pose proof (process_feedback_clamped cfg clk (fb_target fb) (fb_rater fb) (fb_type fb)
                (fb_text fb) st Hmm Hst) as Hstep.
  unfold exec in *. cbn [bulk_loop]. unfold bind.
  destruct (process_feedback cfg clk (fb_target fb) (fb_rater fb) (fb_type fb)
              (fb_text fb) st) as [[r|e] st1]; cbn [snd] in *; [|done].
  by apply IH.
Qed.

Lemma apply_decay_clamped cfg now st :
  min_rating cfg <= max_rating cfg ->
  ratings_clamped cfg st ->
  ratings_clamped cfg (exec (apply_decay cfg now) st).
Proof.
  intros Hmm Hst u r.
  destruct (decay_loop_swept cfg now (decay_constant cfg) st (meta st)) as (_ & _ & Hsw).
  change (exec (apply_decay cfg now) st)
    with (map_fold (decay_step cfg now (decay_constant cfg)) st (meta st)).
  specialize (Hsw u). destruct (meta st !! u) as [m|].
  - cbv zeta in Hsw. destruct (Rle_dec _ 0).
    + destruct Hsw as [-> _]. apply Hst.
    + destruct Hsw as [-> _]. intros [= <-]. by apply clamp_bounds.
  - destruct Hsw as [-> _]. apply Hst.
Qed.

Lemma run_op_clamped cfg op st :
  min_rating cfg <= max_rating cfg ->
  ratings_clamped cfg st ->
  ratings_clamped cfg (run_op cfg op st).
Proof.
  intros Hmm Hst. destruct op; cbn [run_op]; try done.
  - by apply process_feedback_clamped.
  - by apply bulk_loop_clamped.
  - by apply apply_decay_clamped.
Qed.

(** C2: when [min_rating <= neutral_rating <= max_rating], every value in
    the rating store lies between [min_rating] and [max_rating] after any
    sequence of operations ([process_feedback], [bulk_process],
    [apply_decay], [file_appeal], the reports, [get_rating]) run on stores
    where that holds, the empty stores of a new system among them. *)
Theorem clamp_invariant (cfg : Config) (ops : list Op) (st : State) :
  min_rating cfg <= neutral cfg <= max_rating cfg ->
  ratings_clamped cfg st ->
  ratings_clamped cfg (run_ops cfg ops st).
Proof.
  intros Hn. assert (Hmm : min_rating cfg <= max_rating cfg) by lra.
  unfold run_ops. revert st.
  induction ops as [|op ops IH]; intros st Hst; [done|].
  cbn [fold_left]. apply IH. by apply run_op_clamped.
Qed.

Lemma clamp_invariant_witness :
  ratings_clamped default_config
    (run_ops default_config
       [OpProcessFeedback {| t_gate := 0; t_default := 0; t_commit := 0 |}
                          "alice" "bob" "like" PyNone;
        OpApplyDecay 86400000000;
        OpFileAppeal "alice" "unfair" 86400000001;
        OpGetRating "alice"]
       init_state).
Proof.
  apply (clamp_invariant default_config).
  - cbn [min_rating max_rating neutral default_config]. lra.
  - intros uid r Hr. cbn in Hr. rewrite lookup_empty in Hr. discriminate.
Defined.

(** * Further properties of the engine *)

(** ** The cooldown window *)

Lemma whole_days_lt (delta days : Z) :
  (timedelta_days delta < days)%Z <-> (delta < days * MICROSECONDS_PER_DAY)%Z.
Proof.
  unfold timedelta_days, MICROSECONDS_PER_DAY. split; intros H.
  - destruct (Z.lt_ge_cases delta (days * 86400000000)) as [|Hge]; [done|].
    assert (days <= delta / 86400000000)%Z by (apply Z.div_le_lower_bound; lia).
    lia.
  - apply Z.div_lt_upper_bound; lia.
Qed.

(** X1: with an entry for the pair, [_cooldown_ok] answers [False] exactly
    when less than [cooldown_days] times 24 hours, to the microsecond, lie
    between the entry and now: counting whole days loses nothing. *)
Theorem cooldown_window_exact (cfg : Config) (st : State) (now : Z)
    (target_user rater_user : string) (last_time : Z) :
  last_feedback st !! (rater_user, target_user) = Some last_time ->
  (_cooldown_ok cfg now target_user rater_user st = (Return false, st)
   <-> (now - last_time < cooldown_days cfg * MICROSECONDS_PER_DAY)%Z)
  /\ (_cooldown_ok cfg now target_user rater_user st = (Return true, st)
      <-> (cooldown_days cfg * MICROSECONDS_PER_DAY <= now - last_time)%Z).
Proof.
  intros Hl. unfold _cooldown_ok, gets. rewrite Hl.
  pose proof (whole_days_lt (now - last_time) (cooldown_days cfg)) as Hw.
  destruct Hw as [Hw1 Hw2].
  destruct (Z.leb_spec (cooldown_days cfg) (timedelta_days (now - last_time))) as [Hle|Hlt].
  - assert (Hn : ~ (now - last_time < cooldown_days cfg * MICROSECONDS_PER_DAY)%Z).
    { intros X. apply Hw2 in X. lia. }
    split; split; intros H; try done; try lia.
  - apply Hw1 in Hlt.
    split; split; intros H; try done; try lia.
Qed.

Lemma cooldown_window_exact_witness :
  let st := {| ratings := ∅; meta := ∅;
               last_feedback := {[ ("bob", "alice") := 0%Z ]}; appeal_log := [] |} in
  _cooldown_ok default_config 604799999999 "alice" "bob" st = (Return false, st)
  /\ _cooldown_ok default_config 604800000000 "alice" "bob" st = (Return true, st).
Proof.
  intros st.
  assert (Hl : last_feedback st !! ("bob", "alice") = Some 0%Z) by reflexivity.
  split.
  - apply (cooldown_window_exact default_config st 604799999999 "alice" "bob" 0 Hl).
    reflexivity.
  - apply (cooldown_window_exact default_config st 604800000000 "alice" "bob" 0 Hl).
    discriminate.
Defined.

(** ** What one call returns and what it leaves behind *)

Lemma process_feedback_cases cfg clk target_user rater_user feedback_type comment_text st :
  (cooldown_active cfg st (t_gate clk) target_user rater_user
   /\ process_feedback cfg clk target_user rater_user feedback_type comment_text st
      = (Return (rating_of cfg st target_user), st))
  \/ (~ cooldown_active cfg st (t_gate clk) target_user rater_user
      /\ exists e,
           process_feedback cfg clk target_user rater_user feedback_type comment_text st
           = (Raise e, st))
  \/ (~ cooldown_active cfg st (t_gate clk) target_user rater_user
      /\ exists polarity change,
           polarity_of cfg feedback_type comment_text = Return polarity
           /\ process_feedback cfg clk target_user rater_user feedback_type comment_text st
              = (Return (_clamp cfg (rating_of cfg st target_user + change)),
                 committed_state cfg clk target_user rater_user feedback_type
                                 polarity change st)).
Proof.
  destruct (cooldown_active_dec cfg st (t_gate clk) target_user rater_user) as [Hcd|Hopen].
  - left. split; [done|]. by apply process_feedback_blocked.
  - right. rewrite process_feedback_open by done.
    destruct (polarity_of cfg feedback_type comment_text) as [polarity|e];
      [|left; split; [done|by exists e]].
    destruct (_influence_weight cfg (rating_of cfg st rater_user)) as [influence|e];
      [|left; split; [done|by exists e]].
    destruct (type_mult_of feedback_type) as [type_mult|e];
      [|left; split; [done|by exists e]].
    destruct (change_of cfg polarity influence type_mult (rating_of cfg st target_user))
      as [change|e]; [|left; split; [done|by exists e]].
    right. split; [done|]. by exists polarity, change.
Qed.

(** X2: whenever [process_feedback] returns, blocked by the cooldown or
    not, the value returned is the rating [get_rating] gives for the target
    in the stores the call leaves behind. *)
Theorem returned_rating_is_stored (cfg : Config) (clk : Clock)
    (target_user rater_user feedback_type : string) (comment_text : PyValue)
    (st st' : State) (r : R) :
  process_feedback cfg clk target_user rater_user feedback_type comment_text st
  = (Return r, st') ->
  get_rating cfg target_user st' = (Return r, st').
Proof.
  intros Hcall. unfold get_rating, gets. f_equal. f_equal.
  destruct (process_feedback_cases cfg clk target_user rater_user feedback_type
              comment_text st)
    as [[_ H]|[[_ (e & H)]|[_ (polarity & change & _ & H)]]];
    rewrite H in Hcall; [|discriminate|].
  - by injection Hcall as <- <-.
  - injection Hcall as <- <-. unfold rating_of at 1, committed_state. cbn [ratings].
    by rewrite lookup_insert_eq.
Qed.

Lemma returned_rating_is_stored_witness :
  let clk := {| t_gate := 0; t_default := 0; t_commit := 0 |} in
  let st' := committed_state default_config clk "alice" "bob" "like" "positive"
                             like_change init_state in
  get_rating default_config "alice" st' = (Return (2.5 + like_change), st').
Proof.
  intros clk st'.
  apply (returned_rating_is_stored default_config clk "alice" "bob" "like" PyNone
           init_state st' (2.5 + like_change)).
  apply first_like.
Defined.

(** X3: a call of [process_feedback] that raises, whatever the exception,
    has changed none of the stores, and no call blocked by the cooldown
    raises. *)
Theorem raise_leaves_stores (cfg : Config) (clk : Clock)
    (target_user rater_user feedback_type : string) (comment_text : PyValue)
    (st st' : State) (e : exn) :
  process_feedback cfg clk target_user rater_user feedback_type comment_text st
  = (Raise e, st') ->
  st' = st /\ ~ cooldown_active cfg st (t_gate clk) target_user rater_user.
Proof.
  intros Hcall.
  destruct (process_feedback_cases cfg clk target_user rater_user feedback_type
              comment_text st)
    as [[_ H]|[[Hopen (e' & H)]|[_ (polarity & change & _ & H)]]];
    rewrite H in Hcall; [discriminate| |discriminate].
  by injection Hcall as _ <-.
Qed.

Lemma raise_leaves_stores_witness :
  let clk := {| t_gate := 0; t_default := 0; t_commit := 0 |} in
  let cfg0 := {| base_change := 0.06; min_rating := 0; max_rating := 0; neutral := 0;
                 decay_half_life_days := 90; cooldown_days := 7;
                 sentiment_pipe := None |} in
  process_feedback cfg0 clk "alice" "bob" "like" PyNone init_state
  = (Raise (ZeroDivisionError "float division by zero"), init_state)
  /\ ~ cooldown_active cfg0 init_state 0 "alice" "bob".
Proof.
  intros clk cfg0.
  assert (Hopen : ~ cooldown_active cfg0 init_state (t_gate clk) "alice" "bob").
  { intros (t & Ht & _). cbn in Ht. by rewrite lookup_empty in Ht. }
  assert (Hcall : process_feedback cfg0 clk "alice" "bob" "like" PyNone init_state
                  = (Raise (ZeroDivisionError "float division by zero"), init_state)).
  { rewrite (process_feedback_open _ _ _ _ _ _ _ Hopen).
    change (polarity_of cfg0 "like" PyNone) with (@Return string "positive").
    unfold _influence_weight, py_div. cbn [max_rating cfg0].
    destruct (Req_dec_T 0 0) as [_|Hne]; [reflexivity|by destruct Hne]. }
  split; [exact Hcall|].
  apply (raise_leaves_stores cfg0 clk "alice" "bob" "like" PyNone init_state init_state
           (ZeroDivisionError "float division by zero") Hcall).
Defined.

(** X4: after a feedback that went through the gate and returned, a further
    feedback of the same rater to the same target, of any type and text, that
    arrives less than [cooldown_days] times 24 hours after the first was
    committed is suppressed: it returns what the first returned and changes
    nothing. *)
Theorem repeated_feedback_suppressed (cfg : Config) (clk1 clk2 : Clock)
    (target_user rater_user type1 type2 : string) (text1 text2 : PyValue)
    (st st1 : State) (r1 : R) :
  ~ cooldown_active cfg st (t_gate clk1) target_user rater_user ->
  process_feedback cfg clk1 target_user rater_user type1 text1 st = (Return r1, st1) ->
  (t_gate clk2 - t_commit clk1 < cooldown_days cfg * MICROSECONDS_PER_DAY)%Z ->
  process_feedback cfg clk2 target_user rater_user type2 text2 st1 = (Return r1, st1).
Proof.
  intros Hopen Hcall Hsoon.
  destruct (process_feedback_cases cfg clk1 target_user rater_user type1 text1 st)
    as [[Hcd _]|[[_ (e & H)]|[_ (polarity & change & _ & H)]]];
    [done|rewrite H in Hcall; discriminate|].
  rewrite H in Hcall. injection Hcall as <- <-.
  rewrite process_feedback_blocked.
  - do 2 f_equal. unfold rating_of at 1, committed_state. cbn [ratings].
    by rewrite lookup_insert_eq.
  - exists (t_commit clk1). split.
    + unfold committed_state. cbn [last_feedback]. apply lookup_insert_eq.
    + by apply whole_days_lt.
Qed.

Lemma repeated_feedback_suppressed_witness :
  let clk1 := {| t_gate := 0; t_default := 0; t_commit := 0 |} in
  let clk2 := {| t_gate := 604799999999; t_default := 604799999999;
                 t_commit := 604799999999 |} in
  let st1 := committed_state default_config clk1 "alice" "bob" "like" "positive"
                             like_change init_state in
  process_feedback default_config clk2 "alice" "bob" "dislike" PyNone st1
  = (Return (2.5 + like_change), st1).
Proof.
  intros clk1 clk2 st1.
  apply (repeated_feedback_suppressed default_config clk1 clk2 "alice" "bob"
           "like" "dislike" PyNone PyNone init_state st1 (2.5 + like_change)).
  - intros (t & Ht & _). cbn in Ht. rewrite lookup_empty in Ht. discriminate.
  - apply first_like.
  - reflexivity.
Defined.

(** ** Size and direction of one step *)

Lemma influence_spec_bounds M r :
  0 < M -> 0 <= r <= M -> 0.1 <= influence_spec M r <= 1.2.
Proof.
  intros HM Hr. unfold influence_spec.
  assert (H0 : 0 <= sqrt (r / M)) by apply sqrt_pos.
  assert (H1 : sqrt (r / M) <= 1).
  { rewrite <- sqrt_1. apply sqrt_le_1_alt.
    replace 1 with (M / M) by (field; lra). apply div_le_compat; lra. }
  lra.
Qed.

Lemma difficulty_spec_bounds M t :
  0 < M -> 0 <= t <= M -> 0.12 <= difficulty_spec M t <= 1.
Proof.
  intros HM Ht. unfold difficulty_spec. split; [apply Rmax_l|].
  assert (H0 : 0 <= t / M) by (apply div_nonneg; lra).
  assert (Hc : 0 <= (t / M) ^ 3) by (apply pow_le; lra).
  apply Rmax_lub; lra.
Qed.

Lemma type_mult_of_valid cfg feedback_type comment_text polarity :
  polarity_of cfg feedback_type comment_text = Return polarity ->
  exists type_mult, type_mult_of feedback_type = Return type_mult /\ 0.6 <= type_mult <= 1.
Proof.
  unfold polarity_of, type_mult_of.
  destruct (String.eqb feedback_type "like"); [intros _; exists 0.6; split; [done|lra]|].
  destruct (String.eqb feedback_type "dislike"); [intros _; exists 0.8; split; [done|lra]|].
  destruct (String.eqb feedback_type "comment"); [intros _; exists 1; split; [done|lra]|].
  discriminate.
Qed.

Lemma direction_of_cases polarity :
  polarity = "positive" /\ direction_of polarity = 1%Z
  \/ polarity = "negative" /\ direction_of polarity = (-1)%Z
  \/ polarity <> "positive" /\ polarity <> "negative" /\ direction_of polarity = 0%Z.
Proof.
  unfold direction_of.
  destruct (String.eqb_spec polarity "positive") as [->|Hp]; [by left|].
  destruct (String.eqb_spec polarity "negative") as [->|Hn]; [by right; left|].
  by right; right.
Qed.

Lemma clamp_step cfg old x :
  min_rating cfg <= old <= max_rating cfg ->
  (0 <= x -> old <= _clamp cfg (old + x) <= old + x)
  /\ (x <= 0 -> old + x <= _clamp cfg (old + x) <= old).
Proof.
  intros Ho. unfold _clamp, Rmax, Rmin.
  split; intros Hx; repeat destruct (Rle_dec _ _); lra.
Qed.

(** In a well-formed configuration, on stores within the bounds, a call
    with a valid type returns; its step is [base_change] times a factor of at
    most 1.2, in the direction of the polarity. *)
Lemma feedback_returns cfg clk target_user rater_user feedback_type comment_text polarity st :
  well_formed cfg ->
  ratings_clamped cfg st ->
  polarity_of cfg feedback_type comment_text = Return polarity ->
  exists q st',
    0 <= q <= 1.2
    /\ process_feedback cfg clk target_user rater_user feedback_type comment_text st
       = (Return (_clamp cfg (rating_of cfg st target_user
                              + base_change cfg * q * IZR (direction_of polarity))), st').
Proof.
  intros (Hmin & Hneutral & Hmax) Hst Hpol.
  pose proof (rating_of_bounds cfg st target_user Hneutral Hst) as Ht.
  pose proof (rating_of_bounds cfg st rater_user Hneutral Hst) as Hr.
  destruct (cooldown_active_dec cfg st (t_gate clk) target_user rater_user) as [Hcd|Hopen].
  - exists 0, st. split; [lra|]. rewrite process_feedback_blocked by done.
    do 2 f_equal. rewrite clamp_id; [lra|].
    replace (rating_of cfg st target_user + base_change cfg * 0
             * IZR (direction_of polarity)) with (rating_of cfg st target_user) by ring.
    done.
  - rewrite process_feedback_open by done. rewrite Hpol.
    rewrite influence_weight_value by lra.
    destruct (type_mult_of_valid _ _ _ _ Hpol) as (type_mult & -> & Htm).
    pose proof (influence_spec_bounds (max_rating cfg) (rating_of cfg st rater_user)
                  Hmax ltac:(lra)) as Hw.
    pose proof (difficulty_spec_bounds (max_rating cfg) (rating_of cfg st target_user)
                  Hmax ltac:(lra)) as Hd.
    unfold change_of.
    destruct (Z.eqb_spec (direction_of polarity) 0) as [Hz|Hnz].
    + eexists 0, _. split; [lra|]. rewrite Hz. do 3 f_equal. ring.
    + rewrite difficulty_modifier_unit by lra.
      eexists (influence_spec (max_rating cfg) (rating_of cfg st rater_user)
               * type_mult
               * difficulty_spec (max_rating cfg) (rating_of cfg st target_user)), _.
      split; [|do 3 f_equal; ring].
      set (w := influence_spec _ _) in *. set (d := difficulty_spec _ _) in *.
      assert (Hwt : 0 <= w * type_mult <= 1.2) by nra.
      nra.
Qed.

(** X5: in a well-formed configuration with a non-negative [base_change],
    on stores within the bounds, a call with a valid type returns, and the
    rating it returns is not below the target's old rating when the polarity
    is positive, not above it when the polarity is negative, and equal to it
    otherwise; a like never lowers a rating and a dislike never raises one. *)
Theorem feedback_moves_by_polarity (cfg : Config) (clk : Clock)
    (target_user rater_user feedback_type : string) (comment_text : PyValue)
    (polarity : string) (st : State) :
  well_formed cfg ->
  0 <= base_change cfg ->
  ratings_clamped cfg st ->
  polarity_of cfg feedback_type comment_text = Return polarity ->
  exists r st',
    process_feedback cfg clk target_user rater_user feedback_type comment_text st
    = (Return r, st')
    /\ (polarity = "positive" -> rating_of cfg st target_user <= r)
    /\ (polarity = "negative" -> r <= rating_of cfg st target_user)
    /\ (polarity <> "positive" -> polarity <> "negative" ->
        r = rating_of cfg st target_user).
Proof.
  intros Hwf Hb Hst Hpol.
  destruct (feedback_returns cfg clk target_user rater_user feedback_type comment_text
              polarity st Hwf Hst Hpol) as (q & st' & Hq & Hcall).
  destruct Hwf as (_ & Hneutral & _).
  pose proof (rating_of_bounds cfg st target_user Hneutral Hst) as Ht.
  eexists _, st'. split; [exact Hcall|].
  set (x := base_change cfg * q * IZR (direction_of polarity)).
  destruct (clamp_step cfg (rating_of cfg st target_user) x Ht) as [Hup Hdown].
  destruct (direction_of_cases polarity) as [[Hp Hd]|[[Hp Hd]|(Hp & Hn & Hd)]];
    subst x; rewrite Hd in *.
  - split; [|split]; intros; try (subst; done).
    apply Hup. change (IZR 1) with 1. nra.
  - split; [|split]; intros; try (subst; done).
    apply Hdown. change (IZR (-1)) with (-1). nra.
  - split; [done|]. split; [done|]. intros _ _.
    replace (base_change cfg * q * 0) with 0 in * by ring.
    destruct (Hup ltac:(lra)). lra.
Qed.

Lemma feedback_moves_by_polarity_witness :
  exists r st',
    process_feedback default_config {| t_gate := 0; t_default := 0; t_commit := 0 |}
                     "alice" "bob" "dislike" PyNone init_state = (Return r, st')
    /\ r <= rating_of default_config init_state "alice".
Proof.
  assert (Hwf : well_formed default_config).
  { unfold well_formed. cbn [min_rating max_rating neutral default_config]. lra. }
  assert (Hb : 0 <= base_change default_config) by (cbn [base_change default_config]; lra).
  assert (Hst : ratings_clamped default_config init_state).
  { intros uid r Hr. cbn in Hr. rewrite lookup_empty in Hr. discriminate. }
  assert (Hpol : polarity_of default_config "dislike" PyNone = Return "negative")
    by reflexivity.
  destruct (feedback_moves_by_polarity default_config
              {| t_gate := 0; t_default := 0; t_commit := 0 |}
              "alice" "bob" "dislike" PyNone "negative" init_state Hwf Hb Hst Hpol)
    as (r & st' & Hcall & _ & Hneg & _).
  exists r, st'. split; [exact Hcall|]. apply Hneg. reflexivity.
Defined.

(** ** What an accepted feedback commits *)

Lemma deque_append_last {A : Type} (d : list A) (x : A) : last (deque_append d x) = Some x.
Proof. unfold deque_append. destruct (_ <=? _)%nat; apply last_snoc. Qed.

Lemma deque_append_length {A : Type} (d : list A) (x : A) :
  (List.length d <= HISTORY_MAXLEN)%nat ->
  (List.length (deque_append d x) <= HISTORY_MAXLEN)%nat.
Proof.
  intros Hd. unfold deque_append.
  destruct (Nat.leb_spec HISTORY_MAXLEN (List.length d)) as [Hfull|Hroom];
    rewrite length_app; cbn [List.length].
  - destruct d as [|y d]; cbn [List.tl List.length] in *;
      unfold HISTORY_MAXLEN in *; lia.
  - lia.
Qed.



(** ** Arithmetic failures *)

(** X8: with [max_rating] equal to 0, every call that passes the cooldown
    gate with a valid type raises [ZeroDivisionError], a neutral comment
    included, and leaves the stores as they were. *)
Theorem zero_max_rating_raises (cfg : Config) (clk : Clock)
    (target_user rater_user feedback_type : string) (comment_text : PyValue)
    (polarity : string) (st : State) :
  max_rating cfg = 0 ->
  ~ cooldown_active cfg st (t_gate clk) target_user rater_user ->
  polarity_of cfg feedback_type comment_text = Return polarity ->
  exists msg,
    process_feedback cfg clk target_user rater_user feedback_type comment_text st
    = (Raise (ZeroDivisionError msg), st).
Proof.
  intros HM Hopen Hpol. rewrite process_feedback_open by done. rewrite Hpol.
  unfold _influence_weight, py_div. rewrite HM.
  destruct (Req_dec_T 0 0) as [_|Hne]; [by eexists|by destruct Hne].
Qed.

Lemma zero_max_rating_raises_witness :
  let cfg0 := {| base_change := 0.06; min_rating := 0; max_rating := 0; neutral := 0;
                 decay_half_life_days := 90; cooldown_days := 7;
                 sentiment_pipe := None |} in
  exists msg,
    process_feedback cfg0 {| t_gate := 0; t_default := 0; t_commit := 0 |}
                     "alice" "bob" "comment" (PyStr "it is a thing") init_state
    = (Raise (ZeroDivisionError msg), init_state).
Proof.
  intros cfg0.
  apply (zero_max_rating_raises cfg0 _ "alice" "bob" "comment" (PyStr "it is a thing")
           "neutral" init_state).
  - reflexivity.
  - intros (t & Ht & _). cbn in Ht. rewrite lookup_empty in Ht. discriminate.
  - reflexivity.
Defined.

(** X9: when the rater's rating and [max_rating] have opposite signs (a
    negative [min_rating] or [neutral_rating] allows it), every call that
    passes the cooldown gate with a valid type raises [ValueError] from the
    square root, and leaves the stores as they were. *)
Theorem negative_rater_raises (cfg : Config) (clk : Clock)
    (target_user rater_user feedback_type : string) (comment_text : PyValue)
    (polarity : string) (st : State) :
  max_rating cfg <> 0 ->
  rating_of cfg st rater_user / max_rating cfg < 0 ->
  ~ cooldown_active cfg st (t_gate clk) target_user rater_user ->
  polarity_of cfg feedback_type comment_text = Return polarity ->
  exists msg,
    process_feedback cfg clk target_user rater_user feedback_type comment_text st
    = (Raise (ValueError msg), st).
Proof.
  intros HM Hneg Hopen Hpol. rewrite process_feedback_open by done. rewrite Hpol.
  unfold _influence_weight. rewrite py_div_nonzero by done.
  unfold math_sqrt. destruct (Rlt_dec _ 0); [by eexists|done].
Qed.

Lemma negative_rater_raises_witness :
  let cfg1 := {| base_change := 0.06; min_rating := -5; max_rating := 5; neutral := -1;
                 decay_half_life_days := 90; cooldown_days := 7;
                 sentiment_pipe := None |} in
  exists msg,
    process_feedback cfg1 {| t_gate := 0; t_default := 0; t_commit := 0 |}
                     "alice" "bob" "like" PyNone init_state
    = (Raise (ValueError msg), init_state).
Proof.
  intros cfg1.
  apply (negative_rater_raises cfg1 _ "alice" "bob" "like" PyNone "positive" init_state).
  - cbn [max_rating cfg1]. lra.
  - unfold rating_of. cbn [ratings init_state]. rewrite lookup_empty.
    cbn [default from_option max_rating neutral cfg1]. unfold Datatypes.id. lra.
  - intros (t & Ht & _). cbn in Ht. rewrite lookup_empty in Ht. discriminate.
  - reflexivity.
Defined.

(** ** Bulk processing *)

Lemma process_feedback_return_value cfg clk target_user rater_user feedback_type
    comment_text st st' r :
  process_feedback cfg clk target_user rater_user feedback_type comment_text st
  = (Return r, st') ->
  rating_of cfg st' target_user = r.
Proof.
  intros Hcall.
  destruct (process_feedback_cases cfg clk target_user rater_user feedback_type
              comment_text st)
    as [[_ H]|[[_ (e & H)]|[_ (p & c & _ & H)]]];
    rewrite H in Hcall; [|discriminate|].
  - by injection Hcall as <- <-.
  - injection Hcall as <- <-. unfold rating_of at 1, committed_state. cbn [ratings].
    by rewrite lookup_insert_eq.
Qed.

Lemma process_feedback_raise_state cfg clk target_user rater_user feedback_type
    comment_text st st' e :
  process_feedback cfg clk target_user rater_user feedback_type comment_text st
  = (Raise e, st') ->
  st' = st.
Proof.
  intros Hcall.
  destruct (process_feedback_cases cfg clk target_user rater_user feedback_type
              comment_text st)
    as [[_ H]|[[_ (e' & H)]|[_ (p & c & _ & H)]]];
    rewrite H in Hcall; [discriminate| |discriminate].
  by injection Hcall as _ <-.
Qed.

Lemma bulk_loop_app cfg front back results st :
  bulk_loop cfg (front ++ back) results st
  = match bulk_loop cfg front results st with
    | (Return results', st') => bulk_loop cfg back results' st'
    | (Raise e, st') => (Raise e, st')
    end.
Proof.
  revert results st. induction front as [|[clk fb] front IH]; intros results st; [done|].
  cbn [app bulk_loop]. unfold bind.
  destruct (process_feedback cfg clk (fb_target fb) (fb_rater fb) (fb_type fb)
              (fb_text fb) st) as [[r|e] st1]; [apply IH|done].
Qed.

Lemma bulk_loop_returns cfg feedbacks results st rs st' :
  bulk_loop cfg feedbacks results st = (Return rs, st') ->
  exists new,
    rs = (results ++ new)%list
    /\ List.length new = List.length feedbacks
    /\ st' = run_ops cfg (List.map op_of_feedback feedbacks) st.
Proof.
  revert results st. induction feedbacks as [|[clk fb] rest IH]; intros results st Hloop.
  - injection Hloop as <- <-. exists []. by rewrite app_nil_r.
  - cbn [bulk_loop] in Hloop. unfold bind in Hloop.
    destruct (process_feedback cfg clk (fb_target fb) (fb_rater fb) (fb_type fb)
                (fb_text fb) st) as [[r|e] st1] eqn:Hcall; [|discriminate].
    destruct (IH _ _ Hloop) as (new & -> & Hlen & ->).
    exists (r :: new). rewrite <- app_assoc. split; [done|].
    split; [cbn [List.length]; lia|].
    unfold run_ops. cbn [List.map fold_left op_of_feedback run_op fst snd].
    unfold exec. by rewrite Hcall.
Qed.

(** X10: when [bulk_process] returns, it returns one rating per feedback,
    the stores are those the same calls of [process_feedback] leave when made
    one after the other, and the last rating returned is the rating of the
    last feedback's target in those stores. *)
Theorem bulk_process_returns (cfg : Config) (feedbacks : list (Clock * Feedback))
    (st st' : State) (rs : list R) :
  bulk_process cfg feedbacks st = (Return rs, st') ->
  List.length rs = List.length feedbacks
  /\ st' = run_ops cfg (List.map op_of_feedback feedbacks) st
  /\ (forall front clk fb, feedbacks = (front ++ [(clk, fb)])%list ->
        last rs = Some (rating_of cfg st' (fb_target fb))).
Proof.
  intros Hbulk. unfold bulk_process in Hbulk.
  destruct (bulk_loop_returns _ _ _ _ _ _ Hbulk) as (new & -> & Hlen & Hst).
  cbn [app]. split; [done|]. split; [done|].
  intros front clk fb ->. rewrite bulk_loop_app in Hbulk.
  destruct (bulk_loop cfg front [] st) as [[rs1|e] st1]; [|discriminate].
  cbn [bulk_loop] in Hbulk. unfold bind in Hbulk.
  destruct (process_feedback cfg clk (fb_target fb) (fb_rater fb) (fb_type fb)
              (fb_text fb) st1) as [[r|e] st2] eqn:Hcall; [|discriminate].
  injection Hbulk as Hrs <-.
  apply process_feedback_return_value in Hcall. rewrite Hcall.
  cbn [app] in Hrs. rewrite <- Hrs. apply last_snoc.
Qed.

Lemma bulk_process_returns_witness :
  let clk := {| t_gate := 0; t_default := 0; t_commit := 0 |} in
  let fb := {| fb_target := "alice"; fb_rater := "bob"; fb_type := "like";
               fb_text := PyNone |} in
  let st' := committed_state default_config clk "alice" "bob" "like" "positive"
                             like_change init_state in
  st' = run_ops default_config [op_of_feedback (clk, fb)] init_state
  /\ last [2.5 + like_change] = Some (rating_of default_config st' "alice").
Proof.
  intros clk fb st'.
  assert (Hbulk : bulk_process default_config [(clk, fb)] init_state
                  = (Return [2.5 + like_change], st')).
  { unfold bulk_process. cbn [bulk_loop fb_target fb_rater fb_type fb_text fb].
    unfold bind. rewrite first_like. reflexivity. }
  destruct (bulk_process_returns default_config [(clk, fb)] init_state st'
              [2.5 + like_change] Hbulk) as (_ & Hst & Hlast).
  split; [exact Hst|]. apply (Hlast [] clk fb). reflexivity.
Defined.

(** X11: [bulk_process] stops at the first feedback whose call raises and
    passes the exception on; the feedbacks before it stay committed (there is
    no rollback) and those after it are never looked at. *)
Theorem bulk_process_aborts (cfg : Config) (front rest : list (Clock * Feedback))
    (clk : Clock) (fb : Feedback) (st st1 st1' : State) (rs : list R) (e : exn) :
  bulk_process cfg front st = (Return rs, st1) ->
  process_feedback cfg clk (fb_target fb) (fb_rater fb) (fb_type fb) (fb_text fb) st1
  = (Raise e, st1') ->
  bulk_process cfg (front ++ (clk, fb) :: rest) st = (Raise e, st1).
Proof.
  intros Hfront Hcall. unfold bulk_process in *.
  rewrite bulk_loop_app, Hfront. cbn [bulk_loop]. unfold bind. rewrite Hcall.
  by rewrite (process_feedback_raise_state _ _ _ _ _ _ _ _ _ Hcall).
Qed.

Lemma bulk_process_aborts_witness :
  let clk := {| t_gate := 0; t_default := 0; t_commit := 0 |} in
  let good := {| fb_target := "alice"; fb_rater := "bob"; fb_type := "like";
                 fb_text := PyNone |} in
  let bad := {| fb_target := "alice"; fb_rater := "carol"; fb_type := "spam";
                fb_text := PyNone |} in
  let st1 := committed_state default_config clk "alice" "bob" "like" "positive"
                             like_change init_state in
  bulk_process default_config [(clk, good); (clk, bad); (clk, good)] init_state
  = (Raise (ValueError "feedback_type must be 'like'|'dislike'|'comment'"), st1).
Proof.
  intros clk good bad st1.
  apply (bulk_process_aborts default_config [(clk, good)] [(clk, good)] clk bad
           init_state st1 st1 [2.5 + like_change]).
  - unfold bulk_process. cbn [bulk_loop fb_target fb_rater fb_type fb_text good].
    unfold bind. rewrite first_like. reflexivity.
  - rewrite process_feedback_open.
    + reflexivity.
    + intros (t & Ht & _). unfold st1, committed_state in Ht.
      cbn [last_feedback fb_target fb_rater bad] in Ht.
      rewrite lookup_insert_ne in Ht by discriminate.
      cbn in Ht. rewrite lookup_empty in Ht. discriminate.
Defined.

(** ** More on the decay sweep *)

Lemma state_eq (a b : State) :
  ratings a = ratings b -> meta a = meta b ->
  last_feedback a = last_feedback b -> appeal_log a = appeal_log b ->
  a = b.
Proof. destruct a, b. cbn. by intros -> -> -> ->. Qed.

Lemma apply_decay_lookup cfg now st (u : string) :
  let st' := exec (apply_decay cfg now) st in
  match meta st !! u with
  | None => ratings st' !! u = ratings st !! u /\ meta st' !! u = None
  | Some m =>
      if Rle_dec (elapsed_days now (last_updated m)) 0
      then ratings st' !! u = ratings st !! u /\ meta st' !! u = Some m
      else ratings st' !! u
           = Some (decayed_rating cfg (rating_of cfg st u)
                                  (elapsed_days now (last_updated m)))
           /\ meta st' !! u = Some (decayed_meta cfg now (rating_of cfg st u) m)
  end.
Proof.
  intros st'.
  destruct (decay_loop_swept cfg now (decay_constant cfg) st (meta st)) as (_ & _ & Hsw).
  specialize (Hsw u).
  change (map_fold (decay_step cfg now (decay_constant cfg)) st (meta st)) with st' in Hsw.
  destruct (meta st !! u) as [m|] eqn:Hm; [|done].
  cbv zeta in Hsw. fold (elapsed_days now (last_updated m)) in Hsw.
  destruct (Rle_dec (elapsed_days now (last_updated m)) 0); [done|].
  destruct Hsw as [Hr Hmeta]. by rewrite Hmeta.
Qed.

Lemma apply_decay_frame cfg now st :
  last_feedback (exec (apply_decay cfg now) st) = last_feedback st
  /\ appeal_log (exec (apply_decay cfg now) st) = appeal_log st.
Proof.
  destruct (decay_loop_swept cfg now (decay_constant cfg) st (meta st)) as (Hlf & Hal & _).
  done.
Qed.

Lemma elapsed_days_same now : elapsed_days now now = 0.
Proof.
  unfold elapsed_days, total_seconds. rewrite Z.sub_diag. unfold Rdiv. ring.
Qed.

(** X12: run twice at the same instant, [apply_decay] does the second time
    nothing at all: the stores after two sweeps are the stores after one. *)
Theorem apply_decay_idempotent (cfg : Config) (now : Z) (st : State) :
  exec (apply_decay cfg now) (exec (apply_decay cfg now) st)
  = exec (apply_decay cfg now) st.
Proof.
  set (st1 := exec (apply_decay cfg now) st).
  assert (Hboth : forall u : string,
            ratings (exec (apply_decay cfg now) st1) !! u = ratings st1 !! u
            /\ meta (exec (apply_decay cfg now) st1) !! u = meta st1 !! u).
  { intros u.
    pose proof (apply_decay_lookup cfg now st u) as H1.
    pose proof (apply_decay_lookup cfg now st1 u) as H2.
    cbv zeta in H1, H2. fold st1 in H1.
    destruct (meta st !! u) as [m|].
    - destruct (Rle_dec (elapsed_days now (last_updated m)) 0) as [Hle|Hgt].
      + destruct H1 as [_ Hm1]. rewrite Hm1 in H2 |- *.
        destruct (Rle_dec (elapsed_days now (last_updated m)) 0); [done|lra].
      + destruct H1 as [_ Hm1]. rewrite Hm1 in H2 |- *.
        cbn [decayed_meta last_updated] in H2. rewrite elapsed_days_same in H2.
        destruct (Rle_dec 0 0); [done|lra].
    - destruct H1 as [_ Hm1]. by rewrite Hm1 in H2 |- *. }
  destruct (apply_decay_frame cfg now st1) as [Hlf Hal].
  apply state_eq; [| |done|done].
  - apply map_eq. intros u. apply Hboth.
  - apply map_eq. intros u. apply Hboth.
Qed.

(** X13: when the neutral rating lies within the bounds, a sweep never
    carries a rating across neutral: whenever it runs and for every user, a
    rating at or above neutral stays at or above it, a rating at or below
    neutral stays at or below it, and a rating equal to neutral stays where
    it is. *)
Theorem decay_toward_neutral (cfg : Config) (now : Z) (st : State) (uid : string) :
  min_rating cfg <= neutral cfg <= max_rating cfg ->
  let old_rating := rating_of cfg st uid in
  let new_rating := rating_of cfg (exec (apply_decay cfg now) st) uid in
  (neutral cfg <= old_rating -> neutral cfg <= new_rating)
  /\ (old_rating <= neutral cfg -> new_rating <= neutral cfg)
  /\ (old_rating = neutral cfg -> new_rating = neutral cfg).
Proof.
  intros Hn old_rating new_rating.
  pose proof (apply_decay_lookup cfg now st uid) as H. cbv zeta in H.
  assert (Hsame : ratings (exec (apply_decay cfg now) st) !! uid = ratings st !! uid ->
                  new_rating = old_rating).
  { intros Heq. subst new_rating old_rating. unfold rating_of. by rewrite Heq. }
  destruct (meta st !! uid) as [m|].
  - destruct (Rle_dec (elapsed_days now (last_updated m)) 0).
    + destruct H as [Hr _]. rewrite (Hsame Hr). repeat split; intros; lra.
    + destruct H as [Hr _].
      assert (Hnew : new_rating
                     = decayed_rating cfg old_rating (elapsed_days now (last_updated m))).
      { subst new_rating. unfold rating_of. by rewrite Hr. }
      rewrite Hnew. unfold decayed_rating, _clamp, Rmax, Rmin.
      pose proof (exp_pos (- decay_constant cfg * elapsed_days now (last_updated m)))
        as Hf.
      set (f := exp _) in *.
      repeat split; intros Hold; repeat destruct (Rle_dec _ _); nra.
  - destruct H as [Hr _]. rewrite (Hsame Hr). repeat split; intros; lra.
Qed.

Lemma decay_toward_neutral_witness :
  let m := {| received_count := 1; positive_count := 1; negative_count := 0;
              last_updated := 0; history := [] |} in
  let st := {| ratings := {[ "alice" := 4 ]}; meta := {[ "alice" := m ]};
               last_feedback := ∅; appeal_log := [] |} in
  2.5 <= rating_of default_config (exec (apply_decay default_config 86400000000) st)
                   "alice".
Proof.
  intros m st.
  assert (Hold : rating_of default_config st "alice" = 4).
  { unfold rating_of. cbn [ratings st]. by rewrite lookup_singleton_eq. }
  assert (Hn : min_rating default_config <= neutral default_config
               <= max_rating default_config).
  { cbn [min_rating max_rating neutral default_config]. lra. }
  destruct (decay_toward_neutral default_config 86400000000 st "alice" Hn)
    as (Habove & _).
  apply Habove. rewrite Hold. cbn [neutral default_config]. lra.
Defined.

(** X15: the sweep creates no metadata entry and removes none, and it
    leaves alone the rating of every user it has no metadata for. *)
Theorem apply_decay_users (cfg : Config) (now : Z) (st : State) :
  dom (meta (exec (apply_decay cfg now) st)) = dom (meta st)
  /\ (forall u : string, meta st !! u = None ->
        ratings (exec (apply_decay cfg now) st) !! u = ratings st !! u).
Proof.
  split.
  - apply set_eq. intros u. rewrite !elem_of_dom.
    pose proof (apply_decay_lookup cfg now st u) as H. cbv zeta in H.
    destruct (meta st !! u) as [m|].
    + destruct (Rle_dec (elapsed_days now (last_updated m)) 0);
        destruct H as [_ ->]; split; intros _; by eexists.
    + destruct H as [_ ->]. done.
  - intros u Hu.
    pose proof (apply_decay_lookup cfg now st u) as H. cbv zeta in H.
    rewrite Hu in H. apply H.
Qed.

Lemma apply_decay_users_witness :
  let st := {| ratings := {[ "zoe" := 1 ]}; meta := ∅;
               last_feedback := ∅; appeal_log := [] |} in
  ratings (exec (apply_decay default_config 86400000000) st) !! "zoe" = Some 1.
Proof.
  intros st.
  destruct (apply_decay_users default_config 86400000000 st) as [_ H].
  rewrite (H "zoe"); [apply lookup_singleton_eq | apply lookup_empty].
Defined.

(** ** Invariants of every run *)

Lemma bulk_loop_preserves (P : State -> Prop) cfg :
  (forall clk t r f c st, P st -> P (exec (process_feedback cfg clk t r f c) st)) ->
  forall feedbacks results st, P st -> P (exec (bulk_loop cfg feedbacks results) st).
Proof.
  intros Hpf feedbacks.
  induction feedbacks as [|[clk fb] rest IH]; intros results st Hst; [done|].
  pose proof (Hpf clk (fb_target fb) (fb_rater fb) (fb_type fb) (fb_text fb) st Hst) as Hstep.
  unfold exec in *. cbn [bulk_loop]. unfold bind.
  destruct (process_feedback cfg clk (fb_target fb) (fb_rater fb) (fb_type fb)
              (fb_text fb) st) as [[r|e] st1]; cbn [snd] in *; [|done].
  by apply IH.
Qed.

Lemma run_ops_preserves (P : State -> Prop) cfg :
  (forall clk t r f c st, P st -> P (exec (process_feedback cfg clk t r f c) st)) ->
  (forall now st, P st -> P (exec (apply_decay cfg now) st)) ->
  (forall t reason now st, P st -> P (exec (file_appeal t reason now) st)) ->
  forall ops st, P st -> P (run_ops cfg ops st).
Proof.
  intros Hpf Hdecay Happeal ops. unfold run_ops.
  induction ops as [|op ops IH]; intros st Hst; [done|].
  cbn [fold_left]. apply IH.
  destruct op; cbn [run_op]; try done.
  - by apply Hpf.
  - unfold bulk_process. by apply bulk_loop_preserves.
  - by apply Hdecay.
  - by apply Happeal.
Qed.

Lemma committed_state_aligned cfg clk target_user rater_user feedback_type polarity change st :
  stores_aligned st ->
  stores_aligned (committed_state cfg clk target_user rater_user feedback_type
                                  polarity change st).
Proof.
  intros [Husers Hkeys]. unfold committed_state. split; cbn [ratings meta last_feedback].
  - intros u. destruct (decide (u = target_user)) as [->|Hu].
    + rewrite !lookup_insert_eq. split; intros _; by eexists.
    + rewrite !lookup_insert_ne by done. apply Husers.
  - intros r t ts. destruct (decide ((rater_user, target_user) = (r, t))) as [[= <- <-]|Hk].
    + intros _. rewrite lookup_insert_eq. by eexists.
    + rewrite lookup_insert_ne by done. intros Hl%Hkeys.
      apply lookup_insert_is_Some. destruct (decide (target_user = t)); auto.
Qed.

Lemma apply_decay_aligned cfg now st :
  stores_aligned st -> stores_aligned (exec (apply_decay cfg now) st).
Proof.
  intros [Husers Hkeys].
  destruct (apply_decay_frame cfg now st) as [Hlf _].
  assert (Hmeta : forall u : string,
            is_Some (meta (exec (apply_decay cfg now) st) !! u) <-> is_Some (meta st !! u)).
  { intros u. pose proof (apply_decay_lookup cfg now st u) as H. cbv zeta in H.
    destruct (meta st !! u) as [m|].
    - destruct (Rle_dec (elapsed_days now (last_updated m)) 0);
        destruct H as [_ ->]; split; intros _; by eexists.
    - destruct H as [_ ->]. done. }
  split.
  - intros u. rewrite Hmeta.
    pose proof (apply_decay_lookup cfg now st u) as H. cbv zeta in H.
    specialize (Husers u).
    destruct (meta st !! u) as [m|].
    + destruct (Rle_dec (elapsed_days now (last_updated m)) 0);
        destruct H as [-> _]; [done|]. split; intros _; by eexists.
    + destruct H as [-> _]. done.
  - intros r t ts. rewrite Hlf, Hmeta. apply Hkeys.
Qed.

(** X16: after any sequence of operations on a new system, the rating
    store and the metadata store hold the same users, and the target of
    every cooldown entry has metadata (stated for any stores of which this
    holds at the start). *)
Theorem stores_stay_aligned (cfg : Config) (ops : list Op) (st : State) :
  stores_aligned st -> stores_aligned (run_ops cfg ops st).
Proof.
  apply (run_ops_preserves stores_aligned).
  - intros clk t r f c st0 Hst0.
    destruct (process_feedback_exec cfg clk t r f c st0) as [->|(p & ch & ->)]; [done|].
    by apply committed_state_aligned.
  - intros now st0. apply apply_decay_aligned.
  - intros t reason now st0 Hst0. exact Hst0.
Qed.

Lemma stores_stay_aligned_witness :
  stores_aligned
    (run_ops default_config
       [OpProcessFeedback {| t_gate := 0; t_default := 0; t_commit := 0 |}
                          "alice" "bob" "like" PyNone;
        OpApplyDecay 86400000000;
        OpFullReport "bob"]
       init_state).
Proof.
  apply (stores_stay_aligned default_config). split.
  - intros u. cbn [ratings meta init_state]. rewrite !lookup_empty.
    split; intros [x Hx]; discriminate.
  - intros r t ts H. cbn [last_feedback init_state] in H.
    rewrite lookup_empty in H. discriminate.
Defined.

Lemma committed_meta_ok clk direction ev old :
  (forall m, old = Some m -> counters_ok m /\ history_bounded m) ->
  counters_ok (committed_meta clk direction ev old)
  /\ history_bounded (committed_meta clk direction ev old).
Proof.
  intros Hold. unfold committed_meta.
  set (m := default (default_meta (t_default clk)) old).
  assert (Hm : counters_ok m /\ history_bounded m).
  { subst m. destruct old as [m0|]; [by apply Hold|].
    cbn. unfold counters_ok, history_bounded, HISTORY_MAXLEN. cbn. lia. }
  destruct Hm as [(Hp & Hn & Hr) Hh].
  split.
  - unfold counters_ok. cbn [received_count positive_count negative_count].
    destruct (Z.eqb_spec direction 1) as [->|_]; [cbn; lia|].
    destruct (direction =? -1)%Z; lia.
  - unfold history_bounded. cbn [history]. by apply deque_append_length.
Qed.

Lemma committed_state_meta_ok cfg clk target_user rater_user feedback_type polarity change st :
  meta_ok st ->
  meta_ok (committed_state cfg clk target_user rater_user feedback_type polarity change st).
Proof.
  intros Hst u m. unfold committed_state. cbn [meta].
  destruct (decide (u = target_user)) as [->|Hu].
  - rewrite lookup_insert_eq. intros [= <-]. apply committed_meta_ok.
    intros m0 Hm0. by apply (Hst target_user).
  - rewrite lookup_insert_ne by done. apply Hst.
Qed.

Lemma apply_decay_meta_ok cfg now st :
  meta_ok st -> meta_ok (exec (apply_decay cfg now) st).
Proof.
  intros Hst u m'.
  pose proof (apply_decay_lookup cfg now st u) as H. cbv zeta in H.
  destruct (meta st !! u) as [m|] eqn:Hm.
  - destruct (Hst u m Hm) as [Hc Hh].
    destruct (Rle_dec (elapsed_days now (last_updated m)) 0);
      destruct H as [_ ->]; intros [= <-]; [done|].
    split; [exact Hc|]. unfold history_bounded, decayed_meta. cbn [history].
    by apply deque_append_length.
  - destruct H as [_ ->]. discriminate.
Qed.

(** X17: after any sequence of operations, for every user the counters are
    non-negative with [positive_count + negative_count <= received_count],
    and the history holds at most 500 events (stated for any stores of which
    this holds at the start, the empty ones among them). *)
Theorem meta_stays_ok (cfg : Config) (ops : list Op) (st : State) :
  meta_ok st -> meta_ok (run_ops cfg ops st).
Proof.
  apply (run_ops_preserves meta_ok).
  - intros clk t r f c st0 Hst0.
    destruct (process_feedback_exec cfg clk t r f c st0) as [->|(p & ch & ->)]; [done|].
    by apply committed_state_meta_ok.
  - intros now st0. apply apply_decay_meta_ok.
  - intros t reason now st0 Hst0. exact Hst0.
Qed.

Lemma meta_stays_ok_witness :
  meta_ok
    (run_ops default_config
       [OpBulkProcess [({| t_gate := 0; t_default := 0; t_commit := 0 |},
                        {| fb_target := "alice"; fb_rater := "bob"; fb_type := "dislike";
                           fb_text := PyNone |})];
        OpApplyDecay 86400000000]
       init_state).
Proof.
  apply (meta_stays_ok default_config).
  intros u m H. cbn [meta init_state] in H. rewrite lookup_empty in H. discriminate.
Defined.

Lemma process_feedback_appeal_log cfg clk t r f c st :
  appeal_log (exec (process_feedback cfg clk t r f c) st) = appeal_log st.
Proof.
  by destruct (process_feedback_exec cfg clk t r f c st) as [->|(p & ch & ->)].
Qed.

Lemma run_op_appeal_log cfg op st :
  appeal_log (run_op cfg op st) = (appeal_log st ++ appeals_of [op])%list.
Proof.
  destruct op; cbn [run_op appeals_of flat_map app]; rewrite ?app_nil_r; try done.
  - apply process_feedback_appeal_log.
  - unfold bulk_process.
    apply (bulk_loop_preserves (fun s => appeal_log s = appeal_log st)); [|done].
    intros clk t r f c st0 <-. apply process_feedback_appeal_log.
  - apply apply_decay_frame.
Qed.

(** X18: the appeal log after any sequence of operations is the log before
    it followed by one record for each [file_appeal] of the sequence, in
    order: no other operation adds, changes or removes a record, and
    [file_appeal] changes none of the other stores. *)
Theorem appeal_log_is_appeals_filed (cfg : Config) (ops : list Op) (st : State) :
  appeal_log (run_ops cfg ops st) = (appeal_log st ++ appeals_of ops)%list
  /\ (forall target_user reason now,
        ratings (exec (file_appeal target_user reason now) st) = ratings st
        /\ meta (exec (file_appeal target_user reason now) st) = meta st
        /\ last_feedback (exec (file_appeal target_user reason now) st)
           = last_feedback st).
Proof.
  split; [|done].
  unfold run_ops. revert st.
  induction ops as [|op ops IH]; intros st.
  - cbn. by rewrite app_nil_r.
  - cbn [fold_left]. rewrite IH, run_op_appeal_log.
    rewrite <- app_assoc. f_equal.
    cbn [appeals_of flat_map]. by rewrite app_nil_r.
Qed.

(** ** More on the classifiers *)

Lemma lower_empty s : lower s = "" -> s = "".
Proof. by destruct s. Qed.

Lemma simple_rule_sentiment_walk c s :
  simple_rule_sentiment (PyStr (String c s)) = sentiment_walk POS_WORDS NEG_WORDS (String c s).
Proof. reflexivity. Qed.

Lemma sentiment_walk_labels pos neg s :
  In (sentiment_walk pos neg s) ["positive"; "negative"; "neutral"].
Proof.
  unfold sentiment_walk. cbv zeta.
  destruct (_ >? 0)%Z; [by left|].
  destruct (_ <? 0)%Z; [by right; left|by right; right; left].
Qed.

Lemma simple_rule_sentiment_labels text :
  In (simple_rule_sentiment text) ["positive"; "negative"; "neutral"].
Proof.
  destruct text as [|[|c s]|n|b].
  - right; right; left; reflexivity.
  - right; right; left; reflexivity.
  - rewrite simple_rule_sentiment_walk. apply sentiment_walk_labels.
  - unfold simple_rule_sentiment. destruct (truthy (PyInt n));
      right; right; left; reflexivity.
  - unfold simple_rule_sentiment. destruct (truthy (PyBool b));
      right; right; left; reflexivity.
Qed.

(** X19: the label does not depend on the case of the letters: two strings
    that [str.lower] maps to the same string are classified alike. *)
Theorem sentiment_ignores_case (s s' : string) :
  lower s = lower s' ->
  simple_rule_sentiment (PyStr s) = simple_rule_sentiment (PyStr s').
Proof.
  intros Hl.
  destruct s as [|c s].
  - symmetry in Hl. apply lower_empty in Hl. by subst.
  - destruct s' as [|c' s']; [by apply lower_empty in Hl|].
    rewrite !simple_rule_sentiment_walk. unfold sentiment_walk. by rewrite Hl.
Qed.

Lemma sentiment_ignores_case_witness :
  simple_rule_sentiment (PyStr "What a GREAT Job")
  = simple_rule_sentiment (PyStr "what a great job").
Proof.
  apply sentiment_ignores_case. reflexivity.
Defined.

(** X20: the label does not depend on the order in which the two word sets
    are walked. *)
Theorem sentiment_ignores_set_order (pos neg : list string) (c : ascii) (s : string) :
  Permutation POS_WORDS pos ->
  Permutation NEG_WORDS neg ->
  sentiment_walk pos neg (String c s) = simple_rule_sentiment (PyStr (String c s)).
Proof.
  intros Hp Hn. rewrite simple_rule_sentiment_walk. unfold sentiment_walk. cbv zeta.
  rewrite <- (score_loop_perm 1 POS_WORDS pos _ _ Hp).
  by rewrite <- (score_loop_perm (-1) NEG_WORDS neg _ _ Hn).
Qed.

Lemma sentiment_ignores_set_order_witness :
  sentiment_walk (List.rev POS_WORDS) (List.rev NEG_WORDS) "I love it"
  = simple_rule_sentiment (PyStr "I love it").
Proof.
  apply (sentiment_ignores_set_order (List.rev POS_WORDS) (List.rev NEG_WORDS)).
  - apply Permutation_rev.
  - apply Permutation_rev.
Defined.

Lemma append_cons x a b : String.append (String x a) b = String x (String.append a b).
Proof. reflexivity. Qed.

Lemma append_empty b : String.append "" b = b.
Proof. reflexivity. Qed.

Lemma prefix_app w s : String.prefix w s = true <-> exists q, s = String.append w q.
Proof.
  revert s. induction w as [|a w IH]; intros s.
  - split; [intros _; by exists s|intros _; by destruct s].
  - destruct s as [|b s]; cbn [String.prefix].
    + split; [discriminate|intros (q & Hq); rewrite append_cons in Hq; discriminate].
    + destruct (ascii_dec a b) as [->|Hab].
      * rewrite IH. split; intros (q & Hq); exists q.
        -- by rewrite append_cons, Hq.
        -- rewrite append_cons in Hq. by injection Hq.
      * split; [discriminate|].
        intros (q & Hq). rewrite append_cons in Hq. injection Hq as Hb _. done.
Qed.

Lemma contains_app w s :
  contains w s = true <-> exists p q, s = String.append p (String.append w q).
Proof.
  induction s as [|b s IH]; cbn [contains].
  - rewrite orb_false_r, prefix_app. split.
    + intros (q & Hq). by exists "", q.
    + intros (p & q & Hpq). destruct p as [|x p]; [by exists q|].
      rewrite append_cons in Hpq. discriminate.
  - rewrite orb_true_iff, prefix_app, IH. split.
    + intros [(q & Hq)|(p & q & Hpq)]; [by exists "", q|].
      exists (String b p), q. by rewrite append_cons, Hpq.
    + intros (p & q & Hpq). destruct p as [|x p].
      * left. by exists q.
      * right. rewrite append_cons in Hpq. injection Hpq as _ Hs. by exists p, q.
Qed.

Lemma append_assoc (a b c : string) :
  String.append (String.append a b) c = String.append a (String.append b c).
Proof.
  induction a as [|x a IH]; [done|]. by rewrite !append_cons, IH.
Qed.

Lemma contains_trans a b s :
  contains a b = true -> contains b s = true -> contains a s = true.
Proof.
  rewrite !contains_app. intros (p1 & q1 & ->) (p2 & q2 & ->).
  exists (String.append p2 p1), (String.append q1 q2).
  by rewrite !append_assoc.
Qed.

Lemma score_loop_ext delta words text_l score (f : string -> bool) :
  (forall w, In w words -> contains w text_l = f w) ->
  score_loop delta words text_l score
  = fold_left (fun sc w => if f w then (sc + delta)%Z else sc) words score.
Proof.
  unfold score_loop. revert score.
  induction words as [|w words IH]; intros score Hf; [done|].
  cbn [fold_left]. rewrite (Hf w) by (by left).
  apply IH. intros w' Hw'. apply Hf. by right.
Qed.

(** X21: the words are looked for as substrings, and the negative word
    dislike contains the positive word like: every text in which dislike
    occurs scores a positive hit for like as well, so the two cancel.  In
    particular a text in which no other listed word occurs is classified
    neutral, not negative. *)
Theorem dislike_also_hits_like (s : string) :
  contains "dislike" (lower s) = true ->
  contains "like" (lower s) = true
  /\ ((forall w, In w POS_WORDS \/ In w NEG_WORDS ->
         w <> "like" -> w <> "dislike" -> contains w (lower s) = false) ->
      simple_rule_sentiment (PyStr s) = "neutral").
Proof.
  intros Hd.
  assert (Hl : contains "like" (lower s) = true).
  { apply (contains_trans "like" "dislike"); [reflexivity|exact Hd]. }
  split; [exact Hl|]. intros Hothers.
  destruct s as [|c s]; [reflexivity|].
  rewrite simple_rule_sentiment_walk. unfold sentiment_walk.
  assert (Hhit : forall w, In w POS_WORDS \/ In w NEG_WORDS ->
            contains w (lower (String c s))
            = (String.eqb w "like" || String.eqb w "dislike")%bool).
  { intros w Hw.
    destruct (String.eqb_spec w "like") as [->|Hnl]; [exact Hl|].
    destruct (String.eqb_spec w "dislike") as [->|Hnd]; [exact Hd|].
    by apply Hothers. }
  cbv zeta.
  rewrite (score_loop_ext 1 POS_WORDS _ _ _ (fun w Hw => Hhit w (or_introl Hw))).
  rewrite (score_loop_ext (-1) NEG_WORDS _ _ _ (fun w Hw => Hhit w (or_intror Hw))).
  reflexivity.
Qed.

Lemma dislike_also_hits_like_witness :
  contains "like" (lower "I DISLIKE this") = true.
Proof.
  apply (dislike_also_hits_like "I DISLIKE this"). reflexivity.
Defined.

(** X22: whatever the pipeline answers or raises, [sentiment_from_text]
    returns one of the three labels; it is [simple_rule_sentiment] of the
    whole text when there is no pipeline, when the text is [None], an [int]
    or a [bool] (slicing these raises [TypeError], which is caught), and when
    the pipeline raises on the first 512 characters of a string. *)
Theorem sentiment_from_text_fallback (cfg : Config) (text : PyValue) :
  In (sentiment_from_text cfg text) ["positive"; "negative"; "neutral"]
  /\ (sentiment_pipe cfg = None ->
      sentiment_from_text cfg text = simple_rule_sentiment text)
  /\ (text = PyNone \/ (exists n, text = PyInt n) \/ (exists b, text = PyBool b) ->
      sentiment_from_text cfg text = simple_rule_sentiment text)
  /\ (forall pipe s,
        sentiment_pipe cfg = Some pipe -> text = PyStr s ->
        pipe (String.substring 0 512 s) = None ->
        sentiment_from_text cfg text = simple_rule_sentiment text).
Proof.
  pose proof (simple_rule_sentiment_labels text) as Hsimple.
  unfold sentiment_from_text. split; [|split; [|split]].
  - destruct (sentiment_pipe cfg) as [pipe|]; [|done].
    destruct text as [|s|n|b]; try done.
    destruct (pipe (String.substring 0 512 s)) as [label|]; [|done].
    destruct (contains "pos" (lower label)); [by left|].
    destruct (contains "neg" (lower label)); [by right; left|by right; right; left].
  - by intros ->.
  - intros [->|[[n ->]|[b ->]]]; by destruct (sentiment_pipe cfg).
  - intros pipe s -> -> Hraise. by rewrite Hraise.
Qed.

Lemma sentiment_from_text_fallback_witness :
  let cfg := {| base_change := 0.06; min_rating := 0; max_rating := 5; neutral := 2.5;
                decay_half_life_days := 90; cooldown_days := 7;
                sentiment_pipe := Some (fun _ => Some "POSITIVE") |} in
  sentiment_from_text cfg (PyInt 7) = simple_rule_sentiment (PyInt 7)
  /\ simple_rule_sentiment (PyInt 7) = "neutral".
Proof.
  intros cfg.
  destruct (sentiment_from_text_fallback cfg (PyInt 7)) as (_ & _ & H & _).
  split; [|reflexivity].
  apply H. right. left. by exists 7%Z.
Defined.

(** X23: when the pipeline answers, only the first 512 characters of the
    comment count: two comments with the same first 512 characters get the
    same label, whatever follows. *)
Theorem sentiment_pipe_sees_512 (cfg : Config) (pipe : string -> option string)
    (s s' : string) :
  sentiment_pipe cfg = Some pipe ->
  String.substring 0 512 s = String.substring 0 512 s' ->
  is_Some (pipe (String.substring 0 512 s)) ->
  sentiment_from_text cfg (PyStr s) = sentiment_from_text cfg (PyStr s').
Proof.
  intros Hpipe Hprefix [label Hlabel]. unfold sentiment_from_text.
  rewrite Hpipe, <- Hprefix, Hlabel. reflexivity.
Qed.

Lemma sentiment_pipe_sees_512_witness :
  let cfg := {| base_change := 0.06; min_rating := 0; max_rating := 5; neutral := 2.5;
                decay_half_life_days := 90; cooldown_days := 7;
                sentiment_pipe := Some (fun t => if contains "fine" t then Some "POSITIVE"
                                                 else Some "NEGATIVE") |} in
  let padding := string_of_list_ascii (List.repeat "."%char 508) in
  sentiment_from_text cfg (PyStr (String.append "fine" (String.append padding "awful")))
  = sentiment_from_text cfg (PyStr (String.append "fine" (String.append padding "great"))).
Proof.
  intros cfg padding.
  apply (sentiment_pipe_sees_512 cfg
           (fun t => if contains "fine" t then Some "POSITIVE" else Some "NEGATIVE")).
  - reflexivity.
  - vm_compute. reflexivity.
  - vm_compute. eexists. reflexivity.
Defined.

(** ** Clamping *)

(** X24: [_clamp] is idempotent and order-preserving; and when the bounds
    are given the wrong way round ([max_rating < min_rating]) it returns
    [min_rating] for every value. *)
Theorem clamp_shape (cfg : Config) (v w : R) :
  _clamp cfg (_clamp cfg v) = _clamp cfg v
  /\ (v <= w -> _clamp cfg v <= _clamp cfg w)
  /\ (max_rating cfg < min_rating cfg -> _clamp cfg v = min_rating cfg).
Proof.
  unfold _clamp, Rmax, Rmin.
  repeat split; try intros H; repeat destruct (Rle_dec _ _); lra.
Qed.

Lemma clamp_shape_witness :
  let cfg := {| base_change := 0.06; min_rating := 5; max_rating := 1; neutral := 2.5;
                decay_half_life_days := 90; cooldown_days := 7;
                sentiment_pipe := None |} in
  _clamp cfg 3 = 5.
Proof.
  intros cfg.
  destruct (clamp_shape cfg 3 3) as (_ & _ & H).
  apply H. cbn [max_rating min_rating cfg]. lra.
Defined.

(** ** Reports *)

(** X26: the two reports read and never write: for a user the stores have
    never seen they show the neutral rating, zero counts and no metadata, and
    create no entry. *)
Theorem reports_of_unseen_user (cfg : Config) (st : State) (user_id : string) :
  ratings st !! user_id = None ->
  meta st !! user_id = None ->
  anonymized_report cfg user_id st
  = (Return {| ar_rating := neutral cfg; ar_received_count := 0;
               ar_positive_count := 0; ar_negative_count := 0 |}, st)
  /\ full_report cfg user_id st
     = (Return {| fr_user := user_id; fr_meta := None; fr_rating := neutral cfg |}, st).
Proof.
  intros Hr Hm.
  unfold anonymized_report, full_report, bind, get_rating, gets, ret, rating_of.
  by rewrite Hr, Hm.
Qed.

Lemma reports_of_unseen_user_witness :
  anonymized_report default_config "zoe" init_state
  = (Return {| ar_rating := 2.5; ar_received_count := 0;
               ar_positive_count := 0; ar_negative_count := 0 |}, init_state).
Proof.
  apply (reports_of_unseen_user default_config init_state "zoe"); apply lookup_empty.
Defined.

(** X27: a feedback that passes the gate and returns shows in the reports
    of its target: the anonymized report taken after it has the returned
    rating and a [received_count] one above that of the report taken before
    (zero for a target never seen); its positive and negative counts have
    not gone down; the full report carries the rating and the metadata as
    stored; neither report changes the stores. *)
Theorem reports_after_feedback (cfg : Config) (clk : Clock)
    (target_user rater_user feedback_type : string) (comment_text : PyValue)
    (st st' : State) (r : R) :
  ~ cooldown_active cfg st (t_gate clk) target_user rater_user ->
  process_feedback cfg clk target_user rater_user feedback_type comment_text st
  = (Return r, st') ->
  exists before after : AnonymizedReport,
    anonymized_report cfg target_user st = (Return before, st)
    /\ anonymized_report cfg target_user st' = (Return after, st')
    /\ ar_rating after = r
    /\ ar_received_count after = (ar_received_count before + 1)%Z
    /\ (ar_positive_count before <= ar_positive_count after)%Z
    /\ (ar_negative_count before <= ar_negative_count after)%Z
    /\ full_report cfg target_user st'
       = (Return {| fr_user := target_user; fr_meta := meta st' !! target_user;
                    fr_rating := r |}, st').
Proof.
  intros Hopen Hcall.
  destruct (process_feedback_cases cfg clk target_user rater_user feedback_type
              comment_text st)
    as [[Hcd _]|[[_ (e & H)]|[_ (polarity & change & Hpol & H)]]];
    [done|rewrite H in Hcall; discriminate|].
  rewrite H in Hcall. injection Hcall as <- <-.
  set (st' := committed_state cfg clk target_user rater_user feedback_type polarity change st).
  assert (Hr : rating_of cfg st' target_user
               = _clamp cfg (rating_of cfg st target_user + change)).
  { unfold rating_of at 1. subst st'. unfold committed_state. cbn [ratings].
    by rewrite lookup_insert_eq. }
  assert (Hm : meta st' !! target_user
               = Some (committed_meta clk (direction_of polarity)
                         (FeedbackEvent (t_commit clk) rater_user feedback_type polarity
                            (rating_of cfg st target_user) (round4 change)
                            (_clamp cfg (rating_of cfg st target_user + change)))
                         (meta st !! target_user))).
  { subst st'. unfold committed_state. cbn [meta]. by rewrite lookup_insert_eq. }
  unfold anonymized_report, full_report, bind, get_rating, gets, ret.
  eexists _, _. split; [reflexivity|]. split; [reflexivity|].
  cbn [ar_rating ar_received_count ar_positive_count ar_negative_count].
  rewrite Hr, Hm. cbn [from_option].
  unfold committed_meta. cbn [received_count positive_count negative_count].
  split; [done|].
  destruct (meta st !! target_user) as [m|];
    cbn [default from_option default_meta received_count positive_count negative_count];
    unfold Datatypes.id;
    (split; [done|]); (split; [|split; [|done]]);
    first [destruct (direction_of polarity =? 1)%Z; lia
          |destruct (direction_of polarity =? -1)%Z; lia].
Qed.

Lemma reports_after_feedback_witness :
  let clk := {| t_gate := 0; t_default := 0; t_commit := 0 |} in
  let st' := committed_state default_config clk "alice" "bob" "like" "positive"
                             like_change init_state in
  exists after,
    anonymized_report default_config "alice" st' = (Return after, st')
    /\ ar_rating after = 2.5 + like_change
    /\ ar_received_count after = 1%Z.
Proof.
  intros clk st'.
  assert (Hopen : ~ cooldown_active default_config init_state (t_gate clk) "alice" "bob").
  { intros (t & Ht & _). cbn in Ht. rewrite lookup_empty in Ht. discriminate. }
  destruct (reports_after_feedback default_config clk "alice" "bob" "like" PyNone
              init_state st' (2.5 + like_change) Hopen (first_like clk "alice" "bob"))
    as (before & after & Hb & Ha & Hr & Hc & _).
  exists after. split; [exact Ha|]. split; [exact Hr|].
  rewrite Hc.
  unfold anonymized_report, bind, get_rating, gets, ret in Hb.
  cbn [meta init_state] in Hb. rewrite lookup_empty in Hb.
  injection Hb as <-. reflexivity.
Defined.

(** ** The history deque *)

(** X29: appending to a history that holds at most 500 events keeps the
    new event as the newest and every older event in order, except that a
    history of exactly 500 loses its single oldest event; the length never
    exceeds 500. *)
Theorem deque_append_fifo (d : list Event) (x : Event) :
  (List.length d <= HISTORY_MAXLEN)%nat ->
  (List.length (deque_append d x) <= HISTORY_MAXLEN)%nat
  /\ last (deque_append d x) = Some x
  /\ ((List.length d < HISTORY_MAXLEN)%nat -> deque_append d x = (d ++ [x])%list)
  /\ (List.length d = HISTORY_MAXLEN ->
      exists oldest, (oldest :: deque_append d x)%list = (d ++ [x])%list).
Proof.
  intros Hd. split; [by apply deque_append_length|].
  split; [apply deque_append_last|].
  unfold deque_append. split.
  - intros Hlt. destruct (Nat.leb_spec HISTORY_MAXLEN (List.length d)); [lia|done].
  - intros Heq. destruct (Nat.leb_spec HISTORY_MAXLEN (List.length d)); [|lia].
    destruct d as [|oldest d]; [discriminate|]. by exists oldest.
Qed.

Lemma deque_append_fifo_witness :
  deque_append [DecayEvent 1 3 2.9] (DecayEvent 2 2.9 2.8)
  = [DecayEvent 1 3 2.9; DecayEvent 2 2.9 2.8].
Proof.
  destruct (deque_append_fifo [DecayEvent 1 3 2.9] (DecayEvent 2 2.9 2.8))
    as (_ & _ & H & _).
  - unfold HISTORY_MAXLEN. cbn [List.length]. lia.
  - apply H. unfold HISTORY_MAXLEN. cbn [List.length]. lia.
Defined.
